(** * update_or_remove_finding_tags: a shallow embedding of [main.py]

    The script is a linear sequence of HTTP calls (authenticate, resolve the
    project's namespace, list the findings carrying a tag, patch each one).
    Python [str] values are sequences of Unicode code points, decoded JSON is
    an inductive type, and the effects (requests sent, lines printed,
    exceptions raised) are threaded through a small state-and-exception monad.
    The remote service, the process environment and the interpreter's own
    renderings are the interface [Host]; every statement holds for all of
    them. *)

From Stdlib Require Import List ZArith NArith Bool Lia String Ascii.
From Stdlib Require Import SpecFloat.
Import ListNotations.

Set Warnings "-register-all".
Local Open Scope N_scope.

(** ** Python strings *)

(** A [str] is a sequence of code points; [len] counts them. *)
Definition pystr := list N.

(** A source literal, character by character. *)
Definition lit (s : string) : pystr := List.map N_of_ascii (list_ascii_of_string s).

Arguments lit : simpl never.

Definition DQUOTE : N := 34.
Definition NEWLINE : N := 10.
Definition CHECK_MARK : N := 9989.   (* U+2705 *)
Definition CROSS_MARK : N := 10060.  (* U+274C *)

Fixpoint pystr_eqb (a b : pystr) : bool :=
  match a, b with
  | [], [] => true
  | x :: a', y :: b' => (x =? y) && pystr_eqb a' b'
  | _, _ => false
  end.

Definition len (s : pystr) : Z := Z.of_nat (List.length s).

Fixpoint digits (u : Decimal.uint) : pystr :=
  match u with
  | Decimal.Nil => []
  | Decimal.D0 u => 48 :: digits u
  | Decimal.D1 u => 49 :: digits u
  | Decimal.D2 u => 50 :: digits u
  | Decimal.D3 u => 51 :: digits u
  | Decimal.D4 u => 52 :: digits u
  | Decimal.D5 u => 53 :: digits u
  | Decimal.D6 u => 54 :: digits u
  | Decimal.D7 u => 55 :: digits u
  | Decimal.D8 u => 56 :: digits u
  | Decimal.D9 u => 57 :: digits u
  end.

(** [str(z)] for an [int]. *)
Definition str_int (z : Z) : pystr :=
  match Z.to_int z with
  | Decimal.Pos u => digits u
  | Decimal.Neg u => 45 :: digits u
  end.

Arguments str_int : simpl never.

(** [needle in haystack] on two strings: substring search. *)
Fixpoint is_prefix (p s : pystr) : bool :=
  match p, s with
  | [], _ => true
  | x :: p', y :: s' => (x =? y) && is_prefix p' s'
  | _ :: _, [] => false
  end.

Fixpoint is_substring (p s : pystr) : bool :=
  is_prefix p s || match s with [] => false | _ :: s' => is_substring p s' end.

(** ** Exceptions and results *)

Inductive errclass :=
| TypeError | AttributeError | KeyError | IndexError | UnicodeEncodeError
| JSONDecodeError | RequestException.

(** [Exception] and [ValueError] are the two classes the script raises
    itself; [Builtin] stands for what the interpreter and the libraries
    raise.  Each carries [str(e)]. *)
Inductive exn :=
| Exception (msg : pystr)
| ValueError (msg : pystr)
| Builtin (cls : errclass) (msg : pystr).

Definition exc_str (e : exn) : pystr :=
  match e with Exception m | ValueError m | Builtin _ m => m end.

Inductive result (A : Type) :=
| Ok (a : A)
| Raise (e : exn).
Arguments Ok {A} a.
Arguments Raise {A} e.

(** ** validate_tag *)

(** The character class [[A-Za-z0-9=@_.-]]. *)
Definition valid_char (c : N) : bool :=
  ((65 <=? c) && (c <=? 90)) || ((97 <=? c) && (c <=? 122)) ||
  ((48 <=? c) && (c <=? 57)) ||
  (c =? 61) || (c =? 64) || (c =? 95) || (c =? 46) || (c =? 45).

(** [$] without [re.MULTILINE]: the end of the string, or just before a
    newline that is the string's last character. *)
Definition at_dollar (rest : pystr) : bool :=
  match rest with
  | [] => true
  | [c] => c =? NEWLINE
  | _ => false
  end.

(** [[A-Za-z0-9=@_.-]+$] tried at the head of [s]: one character of the
    class, then either more of them or the [$]. *)
Fixpoint class_plus_dollar (s : pystr) : bool :=
  match s with
  | [] => false
  | c :: rest => valid_char c && (class_plus_dollar rest || at_dollar rest)
  end.

(** [re.match(valid_pattern, tag)] is anchored at position 0, where [^]
    holds. *)
Definition match_valid_pattern (tag : pystr) : bool := class_plus_dollar tag.

Definition validate_tag (tag tag_name : pystr) : result bool :=
  match tag with
  | [] => Raise (ValueError (tag_name ++ lit " cannot be empty"))
  | _ :: _ =>
    if (63 <? len tag)%Z then
      Raise (ValueError (tag_name ++ lit " must be 63 characters or less (current: "
                           ++ str_int (len tag) ++ lit " characters)"))
    else if negb (match_valid_pattern tag) then
      Raise (ValueError (tag_name ++
        lit " may contain only letters (A-Z), numbers (0-9), and the following characters (=@_.-)"))
    else Ok true
  end.

(** ** Decoded JSON, as the Python values [response.json()] builds *)

Inductive json :=
| JNull                                  (* None *)
| JBool (b : bool)
| JInt (z : Z)
| JFloat (f : spec_float)
| JStr (s : pystr)
| JArr (items : list json)               (* list *)
| JObj (fields : list (pystr * json)).   (* dict, in insertion order, keys distinct *)

Fixpoint lookup (k : pystr) (d : list (pystr * json)) : option json :=
  match d with
  | [] => None
  | (k', v) :: d' => if pystr_eqb k k' then Some v else lookup k d'
  end.

(** What the interpreter refuses to do with a value. *)
Inductive fault :=
| NoAttribute (attr : pystr) (v : json)   (* v.attr *)
| NoLen (v : json)                        (* len(v) *)
| NotIterable (v : json)                  (* for _ in v *)
| NotContainer (v : json)                 (* _ in v *)
| NotSubscriptable (v : json)             (* v[0] *)
| MissingKey (v : json)                   (* v[0] on a dict *)
| OutOfRange (v : json)                   (* v[0] on an empty sequence *)
| CannotEncode (c : N).                   (* print of a character stdout has no code for *)

Definition fault_class (f : fault) : errclass :=
  match f with
  | NoAttribute _ _ => AttributeError
  | MissingKey _ => KeyError
  | OutOfRange _ => IndexError
  | CannotEncode _ => UnicodeEncodeError
  | _ => TypeError
  end.

(** ** Requests, responses and the host *)

Inductive method := POST | GET | PATCH.

Record request := {
  meth : method;
  url : pystr;
  headers : list (pystr * pystr);
  params : list (pystr * pystr);
  body : option json                      (* the [json=] argument *)
}.

Record response := {
  status_code : Z;
  text : pystr;
  json_body : result json                 (* [response.json()]: the decoded body, or its error *)
}.

(** Everything the script takes from outside itself.  [send] is the remote
    service seen through [requests]: the earlier requests of the run and the
    present one decide the response, or the exception the call raises.
    [py_repr] is [str()] on floats, lists and dicts, and [py_errmsg] the
    message of an interpreter error; the script fixes neither.
    [stdout_encodes] tells which characters the encoding of standard output
    has a code for: the script writes U+2705 and U+274C, which many
    encodings lack. *)
Class Host := {
  getenv : pystr -> option pystr;
  send : list request -> request -> result response;
  py_repr : json -> pystr;
  py_errmsg : fault -> pystr;
  stdout_encodes : N -> bool
}.

Section Program.
Context {host : Host}.

Definition fail {A} (f : fault) : result A :=
  Raise (Builtin (fault_class f) (py_errmsg f)).

(** [f"{v}"] *)
Definition py_str (v : json) : pystr :=
  match v with
  | JNull => lit "None"
  | JBool true => lit "True"
  | JBool false => lit "False"
  | JInt z => str_int z
  | JStr s => s
  | _ => py_repr v
  end.

(** [v.get(k, default)] *)
Definition py_get (v : json) (k : pystr) (default : json) : result json :=
  match v with
  | JObj d => Ok (match lookup k d with Some x => x | None => default end)
  | _ => fail (NoAttribute (lit "get") v)
  end.

(** Truth value, as [if v] and [not v] take it. *)
Definition py_truthy (v : json) : bool :=
  match v with
  | JNull => false
  | JBool b => b
  | JInt z => negb (z =? 0)%Z
  | JFloat (S754_zero _) => false
  | JFloat _ => true
  | JStr s => match s with [] => false | _ => true end
  | JArr l => match l with [] => false | _ => true end
  | JObj d => match d with [] => false | _ => true end
  end.

(** [len(v)] *)
Definition py_len (v : json) : result Z :=
  match v with
  | JStr s => Ok (len s)
  | JArr l => Ok (Z.of_nat (List.length l))
  | JObj d => Ok (Z.of_nat (List.length d))
  | _ => fail (NoLen v)
  end.

(** The items [for x in v] visits. *)
Definition py_iter (v : json) : result (list json) :=
  match v with
  | JArr l => Ok l
  | JStr s => Ok (List.map (fun c => JStr [c]) s)
  | JObj d => Ok (List.map (fun kv => JStr (fst kv)) d)
  | _ => fail (NotIterable v)
  end.

(** [v[0]] *)
Definition py_first (v : json) : result json :=
  match v with
  | JArr (x :: _) => Ok x
  | JStr (c :: _) => Ok (JStr [c])
  | JArr [] | JStr [] => fail (OutOfRange v)
  | JObj _ => fail (MissingKey v)
  | _ => fail (NotSubscriptable v)
  end.

(** [tag == v] for a string [tag]: only an equal string is equal. *)
Definition tag_eqb (tag : pystr) (v : json) : bool :=
  match v with
  | JStr s => pystr_eqb tag s
  | _ => false
  end.

(** [tag in v] *)
Definition py_contains (tag : pystr) (v : json) : result bool :=
  match v with
  | JArr l => Ok (existsb (tag_eqb tag) l)
  | JStr s => Ok (is_substring tag s)
  | JObj d => Ok (existsb (fun kv => pystr_eqb tag (fst kv)) d)
  | _ => fail (NotContainer v)
  end.

(** [list.remove]: drops the first equal item, and raises when there is none. *)
Fixpoint list_remove (tag : pystr) (l : list json) : option (list json) :=
  match l with
  | [] => None
  | x :: l' =>
    if tag_eqb tag x then Some l'
    else match list_remove tag l' with
         | Some r => Some (x :: r)
         | None => None
         end
  end.

(** [v.remove(tag)] *)
Definition py_remove (v : json) (tag : pystr) : result json :=
  match v with
  | JArr l =>
    match list_remove tag l with
    | Some l' => Ok (JArr l')
    | None => Raise (ValueError (lit "list.remove(x): x not in list"))
    end
  | _ => fail (NoAttribute (lit "remove") v)
  end.

(** [v.append(tag)] *)
Definition py_append (v : json) (tag : pystr) : result json :=
  match v with
  | JArr l => Ok (JArr (l ++ [JStr tag]))
  | _ => fail (NoAttribute (lit "append") v)
  end.

(** [os.getenv(name)] as a value: [None] when unset. *)
Definition env_value (name : pystr) : json :=
  match getenv name with
  | Some s => JStr s
  | None => JNull
  end.

(** ** Effects: requests sent, lines printed, exceptions raised *)

Record world := {
  sent : list (request * result response);   (* every HTTP call so far, with its outcome *)
  stdout : list pystr                        (* one entry per [print] *)
}.

Definition M (A : Type) : Type := world -> result A * world.

Definition ret {A} (a : A) : M A := fun w => (Ok a, w).

Definition raise {A} (e : exn) : M A := fun w => (Raise e, w).

Definition bind {A B} (m : M A) (k : A -> M B) : M B :=
  fun w =>
    match m w with
    | (Ok a, w') => k a w'
    | (Raise e, w') => (Raise e, w')
    end.

Definition lift {A} (r : result A) : M A := fun w => (r, w).

(** [print(line)] for a line made of the script's plain text and of the
    values of the run (tags, uuids, branch, namespace), which are taken to
    be text standard output can encode. *)
Definition print (line : pystr) : M unit :=
  fun w => (Ok tt, {| sent := sent w; stdout := stdout w ++ [line] |}).

(** [print(line)] for a line in which the script writes [mark], U+2705 or
    U+274C: when standard output has no code for the mark, the line is not
    written and the call raises. *)
Definition print_marked (mark : N) (line : pystr) : M unit :=
  if stdout_encodes mark then print line
  else lift (fail (CannotEncode mark)).

(** The requests made so far, which is what [send] is given. *)
Definition history (w : world) : list request := List.map fst (sent w).

(** One [requests] call: the host answers, and the call is recorded. *)
Definition http (req : request) : M response :=
  fun w =>
    let outcome := send (history w) req in
    (outcome, {| sent := sent w ++ [(req, outcome)]; stdout := stdout w |}).

(** [try: body / except Exception as e: handler(e)] *)
Definition try_except {A} (body : M A) (handler : exn -> M A) : M A :=
  fun w =>
    match body w with
    | (Ok a, w') => (Ok a, w')
    | (Raise e, w') => handler e w'
    end.

End Program.

Declare Scope py_scope.
Delimit Scope py_scope with py.
Notation "x <- m ;; k" := (bind m (fun x => k))
  (at level 61, m at next level, right associativity) : py_scope.
Notation "m ;; k" := (bind m (fun _ => k))
  (at level 61, right associativity) : py_scope.

(** ** The script *)

Section Script.
Context {host : Host}.
Local Open Scope py_scope.

Definition API_URL : pystr := lit "https://api.endorlabs.com/v1".

(** Read once, when the module is loaded. *)
Definition ENDOR_NAMESPACE : json := env_value (lit "ENDOR_NAMESPACE").

(** The call of line 41, with the locals of lines 31-39. *)
Definition token_request : request :=
  let api_key := env_value (lit "API_KEY") in
  let api_secret := env_value (lit "API_SECRET") in
  let url := API_URL ++ lit "/auth/api-key" in
  let payload := JObj [(lit "key", api_key); (lit "secret", api_secret)] in
  let headers := [(lit "Content-Type", lit "application/json")] in
  {| meth := POST; url := url; headers := headers; params := []; body := Some payload |}.

Definition get_token : M json :=
  response <- http token_request ;;
  if (status_code response =? 200)%Z then
    data <- lift (json_body response) ;;
    lift (py_get data (lit "token") JNull)
  else
    raise (Exception (lit "Failed to get token: " ++ str_int (status_code response)
                        ++ lit ", " ++ text response)).

(** The three headers of every authorised call. *)
Definition auth_headers (token : json) : list (pystr * pystr) :=
  [ (lit "Authorization", lit "Bearer " ++ py_str token);
    (lit "Content-Type", lit "application/json");
    (lit "Accept-Encoding", lit "gzip, deflate, br, zstd") ].

(** [response_data.get('list', {}).get('objects', [])], of both listings. *)
Definition listed_objects (response_data : json) : result json :=
  match py_get response_data (lit "list") (JObj []) with
  | Ok list_ => py_get list_ (lit "objects") (JArr [])
  | Raise e => Raise e
  end.

(** [project.get('tenant_meta', {}).get('namespace')] *)
Definition tenant_namespace (project : json) : result json :=
  match py_get project (lit "tenant_meta") (JObj []) with
  | Ok tenant_meta => py_get tenant_meta (lit "namespace") JNull
  | Raise e => Raise e
  end.

(** The call of line 63, with the locals of lines 50-61. *)
Definition projects_request (token : json) (project_uuid : pystr) : request :=
  let url := API_URL ++ lit "/namespaces/" ++ py_str ENDOR_NAMESPACE ++ lit "/projects" in
  let headers := auth_headers token in
  let params :=
    [ (lit "list_parameters.filter", lit "uuid==" ++ [DQUOTE] ++ project_uuid ++ [DQUOTE]);
      (lit "list_parameters.traverse", lit "true") ] in
  {| meth := GET; url := url; headers := headers; params := params; body := None |}.

Definition get_project_namespace (project_uuid : pystr) : M json :=
  token <- get_token ;;
  response <- http (projects_request token project_uuid) ;;
  if (status_code response =? 200)%Z then
    response_data <- lift (json_body response) ;;
    projects <- lift (listed_objects response_data) ;;
    if negb (py_truthy projects) then
      raise (Exception (lit "No project found with UUID: " ++ project_uuid))
    else
      project <- lift (py_first projects) ;;
      project_namespace <- lift (tenant_namespace project) ;;
      print (lit "Project namespace: " ++ py_str project_namespace) ;;
      ret project_namespace
  else
    raise (Exception (lit "Failed to fetch project details: "
                        ++ str_int (status_code response) ++ lit ", " ++ text response)).

(** [if branch:] on the optional command-line value. *)
Definition branch_given (branch : option pystr) : option pystr :=
  match branch with
  | Some (c :: b) => Some (c :: b)
  | _ => None
  end.

(** The [context_filter] of lines 90-97. *)
Definition context_filter (project_uuid tag : pystr) (branch : option pystr) : pystr :=
  match branch_given branch with
  | Some b =>
    lit "context.id==" ++ b ++ lit " and spec.project_uuid==" ++ project_uuid
      ++ lit " and meta.tags CONTAINS " ++ [DQUOTE] ++ tag ++ [DQUOTE]
  | None =>
    lit "context.type==CONTEXT_TYPE_MAIN and spec.project_uuid==" ++ project_uuid
      ++ lit " and meta.tags CONTAINS " ++ [DQUOTE] ++ tag ++ [DQUOTE]
  end.

(** The URL of the findings of a namespace, for the listing and the updates. *)
Definition findings_url (project_namespace : json) : pystr :=
  API_URL ++ lit "/namespaces/" ++ py_str project_namespace ++ lit "/findings".

(** The call of line 105, with the locals of lines 82-103. *)
Definition findings_request (project_namespace token : json) (project_uuid tag : pystr)
    (branch : option pystr) : request :=
  let url := findings_url project_namespace in
  let headers := auth_headers token in
  let params :=
    [ (lit "list_parameters.filter", context_filter project_uuid tag branch);
      (lit "list_parameters.traverse", lit "true") ] in
  {| meth := GET; url := url; headers := headers; params := params; body := None |}.

Definition get_findings_with_tag (project_uuid tag : pystr) (branch : option pystr)
  : M (json * json) :=
  project_namespace <- get_project_namespace project_uuid ;;
  token <- get_token ;;
  match branch_given branch with
  | Some b => print (lit "Using branch context: " ++ b)
  | None => print (lit "Using main context")
  end ;;
  response <- http (findings_request project_namespace token project_uuid tag branch) ;;
  if (status_code response =? 200)%Z then
    response_data <- lift (json_body response) ;;
    findings <- lift (listed_objects response_data) ;;
    n <- lift (py_len findings) ;;
    print (lit "Found " ++ str_int n ++ lit " findings with tag '" ++ tag ++ lit "'") ;;
    ret (findings, project_namespace)
  else
    raise (Exception (lit "Failed to fetch findings: "
                        ++ str_int (status_code response) ++ lit ", " ++ text response)).

(** Lines 136-139: remove the old tag if it is there. *)
Definition remove_old_tag (old_tag : pystr) (finding_uuid existing_tags : json) : M json :=
  has_old <- lift (py_contains old_tag existing_tags) ;;
  if has_old then
    tags <- lift (py_remove existing_tags old_tag) ;;
    print (lit "   Removed tag '" ++ old_tag ++ lit "' from finding " ++ py_str finding_uuid) ;;
    ret tags
  else ret existing_tags.

(** Lines 141-144: add the new tag if it is not there. *)
Definition add_new_tag (new_tag : pystr) (finding_uuid existing_tags : json) : M json :=
  has_new <- lift (py_contains new_tag existing_tags) ;;
  if negb has_new then
    tags <- lift (py_append existing_tags new_tag) ;;
    print (lit "   Added tag '" ++ new_tag ++ lit "' to finding " ++ py_str finding_uuid) ;;
    ret tags
  else ret existing_tags.

Definition patch_payload (finding_uuid existing_tags : json) : json :=
  JObj [ (lit "request", JObj [(lit "update_mask", JStr (lit "meta.tags"))]);
         (lit "object", JObj [ (lit "uuid", finding_uuid);
                               (lit "meta", JObj [(lit "tags", existing_tags)]) ]) ].

(** The call of line 158. *)
Definition patch_request (url : pystr) (headers : list (pystr * pystr))
    (finding_uuid existing_tags : json) : request :=
  {| meth := PATCH; url := url; headers := headers; params := [];
     body := Some (patch_payload finding_uuid existing_tags) |}.

(** [finding.get('meta', {}).get('tags', [])] *)
Definition finding_tags (finding : json) : result json :=
  match py_get finding (lit "meta") (JObj []) with
  | Ok meta => py_get meta (lit "tags") (JArr [])
  | Raise e => Raise e
  end.

(** One turn of the loop of lines 132-163.  The tag list is changed in place
    in the source; nothing reads the finding again afterwards, so the changed
    list is passed along as a value. *)
Definition update_one (url : pystr) (headers : list (pystr * pystr))
    (old_tag new_tag : pystr) (updated_count : Z) (finding : json) : M Z :=
  finding_uuid <- lift (py_get finding (lit "uuid") JNull) ;;
  existing_tags <- lift (finding_tags finding) ;;
  existing_tags <- remove_old_tag old_tag finding_uuid existing_tags ;;
  existing_tags <- add_new_tag new_tag finding_uuid existing_tags ;;
  response <- http (patch_request url headers finding_uuid existing_tags) ;;
  if (status_code response =? 200)%Z then
    print_marked CHECK_MARK
      ([CHECK_MARK] ++ lit " Successfully updated finding " ++ py_str finding_uuid) ;;
    ret (updated_count + 1)%Z
  else
    print_marked CROSS_MARK
      ([CROSS_MARK] ++ lit " Failed to update finding " ++ py_str finding_uuid ++ lit ": "
         ++ str_int (status_code response) ++ lit ", " ++ text response) ;;
    ret updated_count.

(** [for finding in findings: ...], carrying [updated_count]. *)
Fixpoint update_each (url : pystr) (headers : list (pystr * pystr))
    (old_tag new_tag : pystr) (updated_count : Z) (findings : list json) : M Z :=
  match findings with
  | [] => ret updated_count
  | finding :: rest =>
    updated_count <- update_one url headers old_tag new_tag updated_count finding ;;
    update_each url headers old_tag new_tag updated_count rest
  end.

(** The [try] block of [update_finding_tags].  A [print] that raises inside
    it is caught like any other exception: [UnicodeEncodeError] is an
    [Exception]. *)
Definition update_finding_tags_body (project_uuid old_tag new_tag : pystr)
    (branch : option pystr) : M unit :=
  found <- get_findings_with_tag project_uuid old_tag branch ;;
  let '(findings, project_namespace) := found in
  if negb (py_truthy findings) then
    print (lit "No findings found with tag '" ++ old_tag ++ lit "' in project "
             ++ project_uuid)
  else
    token <- get_token ;;
    let url := findings_url project_namespace in
    let headers := auth_headers token in
    items <- lift (py_iter findings) ;;
    updated_count <- update_each url headers old_tag new_tag 0%Z items ;;
    n <- lift (py_len findings) ;;
    print_marked CHECK_MARK
      ([NEWLINE; CHECK_MARK] ++ lit " Updated " ++ str_int updated_count ++ lit " out of "
         ++ str_int n ++ lit " findings").

Definition update_finding_tags (project_uuid old_tag new_tag : pystr)
    (branch : option pystr) : M unit :=
  try_except (update_finding_tags_body project_uuid old_tag new_tag branch)
    (fun e => print_marked CROSS_MARK
                ([CROSS_MARK] ++ lit " Error updating findings in project " ++ project_uuid
                   ++ lit ": " ++ exc_str e)).

(** The parsed command line. *)
Record arguments := {
  arg_old_tag : pystr;
  arg_new_tag : pystr;
  arg_project_uuid : pystr;
  arg_branch : option pystr
}.

(** Both tags are validated in one [try]; any [ValueError] ends it. *)
Definition validate_tags (old_tag new_tag : pystr) : result bool :=
  match validate_tag old_tag (lit "Old tag") with
  | Ok _ => validate_tag new_tag (lit "New tag")
  | Raise e => Raise e
  end.

(** The [__main__] block after [parse_args]: the exit status and the world
    the process leaves.  Status 0 is the normal end of the script, and an
    exception nobody catches ends the interpreter with status 1: so does a
    [print] that raises in the handler of line 218, before [sys.exit(1)] is
    reached. *)
Definition main (args : arguments) (w : world) : Z * world :=
  let old_tag := arg_old_tag args in
  let new_tag := arg_new_tag args in
  let project_uuid := arg_project_uuid args in
  let branch := arg_branch args in
  match validate_tags old_tag new_tag with
  | Raise e =>
    (1%Z, snd (print_marked CROSS_MARK
                 ([CROSS_MARK] ++ lit " Tag validation error: " ++ exc_str e) w))
  | Ok _ =>
    let run :=
      print (lit "Processing findings in project UUID: " ++ project_uuid) ;;
      print (lit "Removing tag '" ++ old_tag ++ lit "' and adding tag '" ++ new_tag
               ++ lit "' to findings..." ++ [NEWLINE]) ;;
      update_finding_tags project_uuid old_tag new_tag branch ;;
      print_marked CHECK_MARK ([CHECK_MARK] ++ lit " Findings processed!") in
    match run w with
    | (Ok _, w') => (0%Z, w')
    | (Raise _, w') => (1%Z, w')
    end
  end.








End Script.

(** ** The lines the script is expected to print *)

(** Lines 161, 163 and 168. *)
Definition success_line {host : Host} (finding_uuid : json) : pystr :=
  [CHECK_MARK] ++ lit " Successfully updated finding " ++ py_str finding_uuid.

Definition failure_line {host : Host} (finding_uuid : json) (response : response) : pystr :=
  [CROSS_MARK] ++ lit " Failed to update finding " ++ py_str finding_uuid ++ lit ": "
    ++ str_int (status_code response) ++ lit ", " ++ text response.

Definition error_line (project_uuid : pystr) (e : exn) : pystr :=
  [CROSS_MARK] ++ lit " Error updating findings in project " ++ project_uuid
    ++ lit ": " ++ exc_str e.


(** Standard output has a code for the two marks the script writes. *)
Definition marks_encodable {host : Host} : Prop :=
  stdout_encodes CHECK_MARK = true /\ stdout_encodes CROSS_MARK = true.

(** What a [print] raises when it has none. *)
Definition encode_error {host : Host} (mark : N) : exn :=
  Builtin UnicodeEncodeError (py_errmsg (CannotEncode mark)).

(** ** Vocabulary of the statements *)

(** How often a tag occurs in a tag sequence. *)
Definition count_tag (tag : pystr) (tags : list json) : nat :=
  List.length (List.filter (tag_eqb tag) tags).

(** The recorded calls that are updates, and those a 200 answered. *)
Definition is_patch (call : request * result response) : bool :=
  match meth (fst call) with PATCH => true | _ => false end.

Definition patch_count (w : world) : nat :=
  List.length (List.filter is_patch (sent w)).








(** The tag list the two steps of lines 136-144 leave, and what they print
    on the way. *)
Definition without_old (old_tag : pystr) (tags : list json) : list json :=
  match list_remove old_tag tags with
  | Some rest => rest
  | None => tags
  end.

Definition recomputed_tags (old_tag new_tag : pystr) (tags : list json) : list json :=
  let tags := without_old old_tag tags in
  if existsb (tag_eqb new_tag) tags then tags else tags ++ [JStr new_tag].

Definition recompute_lines {host : Host} (old_tag new_tag : pystr) (finding_uuid : json)
    (tags : list json) : list pystr :=
  (if existsb (tag_eqb old_tag) tags
   then [lit "   Removed tag '" ++ old_tag ++ lit "' from finding " ++ py_str finding_uuid]
   else [])
  ++
  (if existsb (tag_eqb new_tag) (without_old old_tag tags)
   then []
   else [lit "   Added tag '" ++ new_tag ++ lit "' to finding " ++ py_str finding_uuid]).

(** The line a PATCH response leads to. *)
Definition outcome_line {host : Host} (finding_uuid : json) (r : response) : pystr :=
  if (status_code r =? 200)%Z then success_line finding_uuid
  else failure_line finding_uuid r.




(** ** The outcome of a run, by the answers of the host *)

Section Outcomes.
Context {host : Host}.

(** A call adds one entry to the record and prints nothing. *)
Definition called (w : world) (req : request) : world :=
  {| sent := sent w ++ [(req, send (history w) req)]; stdout := stdout w |}.

Definition printed (w : world) (lines : list pystr) : world :=
  {| sent := sent w; stdout := stdout w ++ lines |}.

(** What [get_token] returns for an outcome of its call. *)
Definition token_result (outcome : result response) : result json :=
  match outcome with
  | Raise e => Raise e
  | Ok r =>
    if (status_code r =? 200)%Z then
      match json_body r with
      | Ok data => py_get data (lit "token") JNull
      | Raise e => Raise e
      end
    else Raise (Exception (lit "Failed to get token: " ++ str_int (status_code r)
                             ++ lit ", " ++ text r))
  end.


(** The mark of the line a PATCH response leads to. *)
Definition mark_of (r : response) : N :=
  if (status_code r =? 200)%Z then CHECK_MARK else CROSS_MARK.

(** The result and the line of one update, by the outcome of its call and
    by whether the line can be written. *)
Definition update_result (updated_count : Z) (outcome : result response) : result Z :=
  match outcome with
  | Ok r =>
    if stdout_encodes (mark_of r) then
      Ok (if (status_code r =? 200)%Z then updated_count + 1 else updated_count)%Z
    else Raise (encode_error (mark_of r))
  | Raise e => Raise e
  end.

Definition update_lines (finding_uuid : json) (outcome : result response) : list pystr :=
  match outcome with
  | Ok r => if stdout_encodes (mark_of r) then [outcome_line finding_uuid r] else []
  | Raise _ => []
  end.

End Outcomes.

(** ** Vocabulary of the further statements *)






Definition validation_line (e : exn) : pystr :=
  [CROSS_MARK] ++ lit " Tag validation error: " ++ exc_str e.

(** The recorded calls that fetch a token. *)
Definition is_post (call : request * result response) : bool :=
  match meth (fst call) with POST => true | _ => false end.

Definition post_count (w : world) : nat :=
  List.length (List.filter is_post (sent w)).


(** [m] adds at most [n] calls of the kind [P] to the record. *)
Definition adds_at_most (P : request * result response -> bool) (n : nat)
    {A : Type} (m : M A) : Prop :=
  forall w,
    (List.length (List.filter P (sent (snd (m w))))
     <= List.length (List.filter P (sent w)) + n)%nat.


(** ** A small service for the examples *)

Module Demo.

(** Compact text of the example bodies (they hold no floats and nothing to
    escape). *)
Fixpoint render (v : json) : pystr :=
  match v with
  | JNull => lit "null"
  | JBool true => lit "true"
  | JBool false => lit "false"
  | JInt z => str_int z
  | JFloat _ => lit "0.0"
  | JStr s => [DQUOTE] ++ s ++ [DQUOTE]
  | JArr l =>
    lit "[" ++ (fix items (l : list json) : pystr :=
                  match l with
                  | [] => []
                  | x :: l' =>
                    render x ++ match l' with [] => [] | _ => lit ", " ++ items l' end
                  end) l ++ lit "]"
  | JObj d =>
    lit "{" ++ (fix fields (d : list (pystr * json)) : pystr :=
                  match d with
                  | [] => []
                  | (k, x) :: d' =>
                    [DQUOTE] ++ k ++ [DQUOTE] ++ lit ": " ++ render x
                      ++ match d' with [] => [] | _ => lit ", " ++ fields d' end
                  end) d ++ lit "}"
  end.

Definition ok_json (v : json) : response :=
  {| status_code := 200; text := render v; json_body := Ok v |}.

Definition plain_error (status : Z) (message : string) : response :=
  {| status_code := status; text := lit message;
     json_body := Raise (Builtin JSONDecodeError (lit "Expecting value: line 1 column 1 (char 0)")) |}.

Definition listing (objects : list json) : response :=
  ok_json (JObj [(lit "list", JObj [(lit "objects", JArr objects)])]).

Definition project (namespace : string) : json :=
  JObj [ (lit "uuid", JStr (lit "p-1"));
         (lit "tenant_meta", JObj [(lit "namespace", JStr (lit namespace))]) ].

Definition finding (uuid : string) (tags : list string) : json :=
  JObj [ (lit "uuid", JStr (lit uuid));
         (lit "meta", JObj [(lit "tags", JArr (List.map (fun t => JStr (lit t)) tags))]) ].

Definition ends_with (suffix s : pystr) : bool := is_prefix (rev suffix) (rev s).

(** The uuid a PATCH body names. *)
Definition patched_uuid (req : request) : option json :=
  match body req with
  | Some (JObj d) =>
    match lookup (lit "object") d with
    | Some (JObj o) => lookup (lit "uuid") o
    | _ => None
    end
  | _ => None
  end.

(** A service that answers by the kind of request: [auth] to the token call,
    [projects] and [findings] to the two listings, and to an update 500 for
    the finding named [failing] and 200 for any other. *)
Definition service (auth projects findings : response) (failing : string)
  : list request -> request -> result response :=
  fun _ req =>
    Ok (match meth req with
        | POST => auth
        | GET => if ends_with (lit "/projects") (url req) then projects else findings
        | PATCH =>
          match patched_uuid req with
          | Some u =>
            if tag_eqb (lit failing) u then plain_error 500 "Internal Server Error"
            else ok_json (JObj [])
          | None => ok_json (JObj [])
          end
        end).

Definition environ (name : pystr) : option pystr :=
  if pystr_eqb name (lit "ENDOR_NAMESPACE") then Some (lit "acme")
  else if pystr_eqb name (lit "API_KEY") then Some (lit "key-1")
  else if pystr_eqb name (lit "API_SECRET") then Some (lit "secret-1")
  else None.

Definition host_of (auth projects findings : response) (failing : string) : Host :=
  {| getenv := environ;
     send := service auth projects findings failing;
     py_repr := render;
     py_errmsg := fun _ => lit "unsupported operation";
     stdout_encodes := fun _ => true |}.


Definition token_response : response := ok_json (JObj [(lit "token", JStr (lit "t0k3n"))]).

Definition start : world := {| sent := []; stdout := [] |}.

(** Three findings carry [dev-repo]; the update of the second fails. *)
Definition three_findings : list json :=
  [ finding "f-1" ["dev-repo"%string; "critical"%string];
    finding "f-2" ["dev-repo"%string];
    finding "f-3" ["team-a"%string; "dev-repo"%string] ].

Definition host_three : Host :=
  host_of token_response (listing [project "acme.team"]) (listing three_findings) "f-2".

(** No finding carries the tag. *)
Definition host_none : Host :=
  host_of token_response (listing [project "acme.team"]) (listing []) "-".

(** The token call is refused. *)
Definition host_401 : Host :=
  host_of (plain_error 401 "Unauthorized") (listing [project "acme.team"]) (listing []) "-".

(** The token call answers 200 with a body that has no token. *)
Definition host_no_token : Host :=
  host_of (ok_json (JObj [])) (listing [project "acme.team"]) (listing []) "-".

(** The project filter matches nothing, or two projects. *)
Definition host_no_project : Host :=
  host_of token_response (listing []) (listing []) "-".



Definition args_dev_prod : arguments :=
  {| arg_old_tag := lit "dev-repo"; arg_new_tag := lit "prod-repo";
     arg_project_uuid := lit "p-1"; arg_branch := None |}.

Definition dev_repo : pystr := lit "dev-repo".
Definition prod_repo : pystr := lit "prod-repo".
Definition p1 : pystr := lit "p-1".



Definition acme_team : json := JStr (lit "acme.team").
Definition t0k3n : json := JStr (lit "t0k3n").




Definition bare_project : json := JObj [(lit "uuid", JStr (lit "p-1"))].

Definition host_bare_project : Host :=
  host_of token_response (listing [bare_project]) (listing []) "-".


Definition null_tags_finding : json :=
  JObj [ (lit "uuid", JStr (lit "f-0"));
         (lit "meta", JObj [(lit "tags", JNull)]) ].

(** The listing holds a finding with [null] tags before a plain one. *)
Definition host_null_tags : Host :=
  host_of token_response (listing [project "acme.team"])
    (listing [null_tags_finding; finding "f-2" ["dev-repo"%string]]) "-".


(** The token call is answered 200 with a page, or with a JSON array. *)
Definition host_html_token : Host :=
  host_of (plain_error 200 "<html></html>") (listing [project "acme.team"]) (listing []) "-".

Definition host_array_token : Host :=
  host_of (ok_json (JArr [])) (listing [project "acme.team"]) (listing []) "-".



Definition listed (h : Host) : world :=
  snd (@get_findings_with_tag h p1 dev_repo None start).

Definition ready (h : Host) : world := snd (@get_token h (listed h)).

Definition both_refused : arguments :=
  {| arg_old_tag := lit "dev repo"; arg_new_tag := [];
     arg_project_uuid := p1; arg_branch := None |}.

Definition new_refused : arguments :=
  {| arg_old_tag := dev_repo; arg_new_tag := [];
     arg_project_uuid := p1; arg_branch := None |}.








End Demo.

(** * Properties *)

(** ** Strings and tag sequences *)

Lemma pystr_eqb_eq (a b : pystr) : pystr_eqb a b = true <-> a = b.
Proof.
  revert b; induction a as [|x a IH]; intros [|y b]; simpl; split; intros H;
    try reflexivity; try discriminate.
  - apply andb_true_iff in H as [Hx Hr]. apply N.eqb_eq in Hx. apply IH in Hr.
    now subst.
  - injection H as -> ->. apply andb_true_iff. split; [apply N.eqb_refl | now apply IH].
Qed.

Lemma pystr_eqb_refl (a : pystr) : pystr_eqb a a = true.
Proof. now apply pystr_eqb_eq. Qed.

Lemma tag_eqb_eq (tag : pystr) (v : json) : tag_eqb tag v = true <-> v = JStr tag.
Proof.
  destruct v; simpl; split; intros H; try discriminate.
  - apply pystr_eqb_eq in H. now subst.
  - injection H as ->. apply pystr_eqb_refl.
Qed.

Lemma tag_eqb_neq (tag : pystr) (v : json) : tag_eqb tag v = false <-> v <> JStr tag.
Proof.
  split.
  - intros H E. apply tag_eqb_eq in E. congruence.
  - intros H. destruct (tag_eqb tag v) eqn:E; [|reflexivity].
    apply tag_eqb_eq in E. contradiction.
Qed.

Lemma has_tag_In (tag : pystr) (tags : list json) :
  existsb (tag_eqb tag) tags = true <-> In (JStr tag) tags.
Proof.
  rewrite existsb_exists. split.
  - intros (v & Hin & Hv). apply tag_eqb_eq in Hv. now subst.
  - intros Hin. exists (JStr tag). split; [assumption | now apply tag_eqb_eq].
Qed.

Lemma lacks_tag_not_In (tag : pystr) (tags : list json) :
  existsb (tag_eqb tag) tags = false <-> ~ In (JStr tag) tags.
Proof.
  rewrite <- has_tag_In. destruct (existsb (tag_eqb tag) tags); split; congruence.
Qed.

Lemma count_tag_zero (tag : pystr) (tags : list json) :
  count_tag tag tags = 0%nat <-> ~ In (JStr tag) tags.
Proof.
  unfold count_tag. induction tags as [|v tags IH]; simpl.
  - tauto.
  - destruct (tag_eqb tag v) eqn:E; simpl.
    + apply tag_eqb_eq in E. subst. split; [discriminate | intros H; exfalso; apply H; now left].
    + apply tag_eqb_neq in E. rewrite IH. split.
      * intros H [H1 | H1]; [congruence | tauto].
      * intros H H1. apply H. now right.
Qed.


(** ** The pattern of [validate_tag] *)

Lemma valid_char_newline : valid_char NEWLINE = false.
Proof. reflexivity. Qed.

(** What [re.match] accepts: a non-empty run of characters of the class,
    possibly followed by one final newline. *)
Lemma match_valid_pattern_iff (tag : pystr) :
  match_valid_pattern tag = true <->
  exists run, run <> [] /\ forallb valid_char run = true /\
              (tag = run \/ tag = run ++ [NEWLINE]).
Proof.
  unfold match_valid_pattern. induction tag as [|c rest IH]; simpl.
  - split; [discriminate|]. intros (run & Hne & _ & [H | H]).
    + congruence.
    + destruct run; discriminate.
  - rewrite andb_true_iff, orb_true_iff, IH. split.
    + intros [Hc [(run & Hne & Hall & Hrun) | Hd]].
      * exists (c :: run). split; [discriminate|]. split; [simpl; now rewrite Hc|].
        destruct Hrun as [-> | ->]; [now left | now right].
      * exists [c]. split; [discriminate|]. split; [simpl; now rewrite Hc|].
        destruct rest as [|d [|e rest]]; simpl in Hd; try discriminate.
        -- now left.
        -- apply N.eqb_eq in Hd. subst. now right.
    + intros (run & Hne & Hall & Hrun).
      destruct run as [|r run]; [congruence|]. simpl in Hall.
      apply andb_true_iff in Hall as [Hr Hall].
      assert (c = r /\ (rest = run \/ rest = run ++ [NEWLINE])) as [-> Hrest].
      { destruct Hrun as [H | H]; injection H as -> ->; split; auto. }
      split; [assumption|].
      destruct run as [|r' run].
      * right. destruct Hrest as [-> | ->]; reflexivity.
      * left. exists (r' :: run). split; [discriminate|]. split; [assumption|]. assumption.
Qed.

(** [validate_tag] accepts exactly the tags of 1 to 63 characters that the
    pattern matches. *)
Lemma validate_tag_ok_iff (tag tag_name : pystr) :
  validate_tag tag tag_name = Ok true <->
  (1 <= len tag <= 63)%Z /\ match_valid_pattern tag = true.
Proof.
  unfold validate_tag. destruct tag as [|c rest].
  - split; [discriminate|]. intros [[H _] _]. cbv in H. now destruct H.
  - assert (Hpos : (1 <= len (c :: rest))%Z).
    { unfold len. cbn [List.length]. lia. }
    destruct (63 <? len (c :: rest))%Z eqn:Hlen.
    + apply Z.ltb_lt in Hlen. split; [discriminate|]. intros [[_ H] _]. lia.
    + apply Z.ltb_ge in Hlen.
      destruct (match_valid_pattern (c :: rest)); simpl.
      * split; [intros _; now repeat split | reflexivity].
      * split; [discriminate | intros [_ H]; discriminate].
Qed.

(** When [validate_tag] returns, and with which message it raises. *)
Lemma validate_tag_cases (tag tag_name : pystr) :
  (tag = [] /\
   validate_tag tag tag_name = Raise (ValueError (tag_name ++ lit " cannot be empty"))) \/
  (tag <> [] /\ (63 < len tag)%Z /\
   validate_tag tag tag_name =
     Raise (ValueError (tag_name ++ lit " must be 63 characters or less (current: "
                          ++ str_int (len tag) ++ lit " characters)"))) \/
  (tag <> [] /\ (len tag <= 63)%Z /\ match_valid_pattern tag = false /\
   validate_tag tag tag_name =
     Raise (ValueError (tag_name ++
       lit " may contain only letters (A-Z), numbers (0-9), and the following characters (=@_.-)"))) \/
  (tag <> [] /\ (len tag <= 63)%Z /\ match_valid_pattern tag = true /\
   validate_tag tag tag_name = Ok true).
Proof.
  destruct tag as [|c rest].
  - left. split; reflexivity.
  - right. unfold validate_tag.
    destruct (63 <? len (c :: rest))%Z eqn:Hlen.
    + left. apply Z.ltb_lt in Hlen. repeat split; [discriminate | assumption].
    + right. apply Z.ltb_ge in Hlen.
      destruct (match_valid_pattern (c :: rest)) eqn:Hm; simpl.
      * right. repeat split; [discriminate | assumption].
      * left. repeat split; [discriminate | assumption].
Qed.

(** C2 (the code departs from it): [validate_tag] accepts the tag
    [dev-repo] followed by a newline, although the newline is outside the
    character set that the docstring and the specification allow; the [$]
    of the pattern also matches just before a final newline. *)
Theorem C2_validate_tag_accepts_trailing_newline :
  validate_tag (lit "dev-repo" ++ [NEWLINE]) (lit "Old tag") = Ok true /\
  forallb valid_char (lit "dev-repo" ++ [NEWLINE]) = false /\
  (1 <= len (lit "dev-repo" ++ [NEWLINE]) <= 63)%Z.
Proof.
  split; [reflexivity|]. split; [reflexivity|]. cbv. split; discriminate.
Qed.

(** ** Running the calls *)

(** Literals stay folded while the runs are unfolded. *)
Opaque lit str_int.

(** Case analysis on whatever the run branches on next; the branches that
    end the run the same way on both sides close by computation. *)
Ltac next_case :=
  match goal with
  | |- context [match ?r with Ok _ => _ | Raise _ => _ end] => destruct r
  | |- context [if ?b then _ else _] => destruct b
  end.

Ltac run_cases := repeat (try reflexivity; next_case).

Section Runs.
Context {host : Host}.

Lemma history_called (w : world) (req : request) :
  history (called w req) = history w ++ [req].
Proof. unfold history, called. simpl. now rewrite map_app. Qed.

Lemma history_printed (w : world) (lines : list pystr) :
  history (printed w lines) = history w.
Proof. reflexivity. Qed.

Lemma printed_nil (w : world) : printed w [] = w.
Proof. destruct w. unfold printed. simpl. now rewrite app_nil_r. Qed.

Lemma printed_printed (w : world) (a b : list pystr) :
  printed (printed w a) b = printed w (a ++ b).
Proof. unfold printed. simpl. now rewrite app_assoc. Qed.

Lemma get_token_run (w : world) :
  get_token w = (token_result (send (history w) token_request), called w token_request).
Proof.
  unfold get_token, bind, http, called, token_result, lift, raise.
  run_cases.
Qed.




(** It makes one call after the token call, and the prints leave the record
    alone. *)
Lemma get_project_namespace_sent (project_uuid : pystr) (w0 w1 : world) (token : json) :
  get_token w0 = (Ok token, w1) ->
  sent (snd (get_project_namespace project_uuid w0))
    = sent (called w1 (projects_request token project_uuid)).
Proof.
  intros Htok.
  unfold get_project_namespace, bind. rewrite Htok.
  unfold http, called, lift, raise.
  run_cases.
Qed.

(** C7: [get_token] makes exactly one call (no retry); when it is answered
    200 with a JSON object, the object's token field is returned, and when
    it is answered with any other status, an [Exception] is raised whose
    message holds the status code and the raw body. *)
Theorem C7_get_token_result (w : world) (r : response) :
  send (history w) token_request = Ok r ->
  sent (snd (get_token w)) = sent w ++ [(token_request, Ok r)] /\
  ((status_code r = 200)%Z ->
   forall fields token,
     json_body r = Ok (JObj fields) -> lookup (lit "token") fields = Some token ->
     fst (get_token w) = Ok token) /\
  ((status_code r <> 200)%Z ->
   fst (get_token w) =
     Raise (Exception (lit "Failed to get token: " ++ str_int (status_code r)
                         ++ lit ", " ++ text r))).
Proof.
  intros Hsend. rewrite get_token_run. unfold called. rewrite Hsend. simpl.
  split; [reflexivity|]. split.
  - intros H200 fields token Hbody Htoken. rewrite H200, Hbody. simpl. now rewrite Htoken.
  - intros Hnot. apply Z.eqb_neq in Hnot. now rewrite Hnot.
Qed.


(** C10: when the token call is answered 200 with an object that has no
    [token] field, [get_token] returns [None] instead of raising, and the
    project listing that follows is sent with the header
    [Authorization: Bearer None]. *)
Theorem C10_missing_token_is_none (project_uuid : pystr) (w : world) (r : response)
    (fields : list (pystr * json)) :
  send (history w) token_request = Ok r ->
  (status_code r = 200)%Z ->
  json_body r = Ok (JObj fields) ->
  lookup (lit "token") fields = None ->
  get_token w = (Ok JNull, called w token_request) /\
  In (lit "Authorization", lit "Bearer None") (headers (projects_request JNull project_uuid)) /\
  exists outcome,
    sent (snd (get_project_namespace project_uuid w))
      = sent w ++ [(token_request, Ok r); (projects_request JNull project_uuid, outcome)].
Proof.
  intros Hsend H200 Hbody Hnone.
  assert (Htok : get_token w = (Ok JNull, called w token_request)).
  { rewrite get_token_run. unfold token_result. rewrite Hsend, H200, Hbody. simpl.
    now rewrite Hnone. }
  split; [assumption|]. split; [now left|].
  rewrite (get_project_namespace_sent project_uuid w _ JNull Htok).
  assert (Hcall : called w token_request
                  = {| sent := sent w ++ [(token_request, Ok r)]; stdout := stdout w |}).
  { unfold called. now rewrite Hsend. }
  rewrite Hcall. unfold called. simpl. rewrite <- app_assoc. simpl.
  eexists. reflexivity.
Qed.

End Runs.

(** ** The update of one finding *)

Section Updates.
Context {host : Host}.

Lemma list_remove_present (tag : pystr) (tags : list json) :
  existsb (tag_eqb tag) tags = true -> exists rest, list_remove tag tags = Some rest.
Proof.
  induction tags as [|v tags IH]; simpl; [discriminate|].
  destruct (tag_eqb tag v); simpl.
  - intros _. now exists tags.
  - intros H. destruct (IH H) as [rest ->]. now exists (v :: rest).
Qed.

Lemma list_remove_absent (tag : pystr) (tags : list json) :
  existsb (tag_eqb tag) tags = false -> list_remove tag tags = None.
Proof.
  induction tags as [|v tags IH]; simpl; [reflexivity|].
  destruct (tag_eqb tag v); simpl; [discriminate|].
  intros H. now rewrite (IH H).
Qed.

(** The two steps on a tag list: the list they leave and the lines they
    print. *)
Lemma recompute_run (old_tag new_tag : pystr) (finding_uuid : json) (tags : list json)
    (w : world) :
  bind (remove_old_tag old_tag finding_uuid (JArr tags))
       (fun t => add_new_tag new_tag finding_uuid t) w
  = (Ok (JArr (recomputed_tags old_tag new_tag tags)),
     printed w (recompute_lines old_tag new_tag finding_uuid tags)).
Proof.
  unfold recomputed_tags, recompute_lines, without_old.
  unfold remove_old_tag, add_new_tag, bind, lift, print, ret, printed. simpl.
  destruct (existsb (tag_eqb old_tag) tags) eqn:Hold.
  - destruct (list_remove_present old_tag tags Hold) as [rest Hrest]. rewrite Hrest. simpl.
    destruct (existsb (tag_eqb new_tag) rest); simpl.
    + reflexivity.
    + now rewrite <- app_assoc.
  - rewrite (list_remove_absent old_tag tags Hold). simpl.
    destruct (existsb (tag_eqb new_tag) tags); simpl.
    + destruct w. simpl. now rewrite app_nil_r.
    + reflexivity.
Qed.

Lemma update_one_run (url : pystr) (headers : list (pystr * pystr))
    (old_tag new_tag : pystr) (updated_count : Z) (finding finding_uuid : json)
    (tags : list json) (w : world) :
  py_get finding (lit "uuid") JNull = Ok finding_uuid ->
  finding_tags finding = Ok (JArr tags) ->
  let req := patch_request url headers finding_uuid
               (JArr (recomputed_tags old_tag new_tag tags)) in
  let outcome := send (history w) req in
  update_one url headers old_tag new_tag updated_count finding w
  = (update_result updated_count outcome,
     {| sent := sent w ++ [(req, outcome)];
        stdout := stdout w ++ recompute_lines old_tag new_tag finding_uuid tags
                    ++ update_lines finding_uuid outcome |}).
Proof.
  intros Huuid Htags req outcome.
  pose proof (recompute_run old_tag new_tag finding_uuid tags w) as Hrun.
  unfold update_one. unfold bind at 1. unfold lift at 1. rewrite Huuid.
  unfold bind at 1. unfold lift at 1. rewrite Htags.
  unfold bind in Hrun. unfold bind at 1.
  destruct (remove_old_tag old_tag finding_uuid (JArr tags) w) as [[t1|e1] w1];
    [|discriminate].
  unfold bind at 1.
  destruct (add_new_tag new_tag finding_uuid t1 w1) as [[t2|e2] w2]; [|discriminate].
  injection Hrun as -> ->.
  unfold bind, http. rewrite history_printed. fold req. fold outcome.
  unfold update_result, update_lines, outcome_line, success_line, failure_line, mark_of,
    encode_error, print_marked, printed, print, lift, fail, ret.
  destruct outcome as [r|e]; simpl.
  - destruct (status_code r =? 200)%Z; simpl.
    + destruct (stdout_encodes CHECK_MARK); simpl;
        [now rewrite <- app_assoc | now rewrite app_nil_r].
    + destruct (stdout_encodes CROSS_MARK); simpl;
        [now rewrite <- app_assoc | now rewrite app_nil_r].
  - now rewrite app_nil_r.
Qed.



(** C9: on a tag list that already lacks the old tag and already holds the
    new one, neither step changes anything or prints anything, and the
    PATCH carries the tag list as it was. *)
Theorem C9_second_pass_changes_nothing (url : pystr) (headers : list (pystr * pystr))
    (old_tag new_tag : pystr) (updated_count : Z) (finding finding_uuid : json)
    (tags : list json) (w : world) :
  py_get finding (lit "uuid") JNull = Ok finding_uuid ->
  finding_tags finding = Ok (JArr tags) ->
  ~ In (JStr old_tag) tags ->
  In (JStr new_tag) tags ->
  remove_old_tag old_tag finding_uuid (JArr tags) w = (Ok (JArr tags), w) /\
  add_new_tag new_tag finding_uuid (JArr tags) w = (Ok (JArr tags), w) /\
  exists outcome,
    sent (snd (update_one url headers old_tag new_tag updated_count finding w))
      = sent w ++ [(patch_request url headers finding_uuid (JArr tags), outcome)].
Proof.
  intros Huuid Htags Hold Hnew.
  apply lacks_tag_not_In in Hold. apply has_tag_In in Hnew.
  split; [|split].
  - unfold remove_old_tag, bind, lift, ret. simpl. now rewrite Hold.
  - unfold add_new_tag, bind, lift, ret. simpl. now rewrite Hnew.
  - eexists.
    rewrite (update_one_run url headers old_tag new_tag updated_count finding finding_uuid
               tags w Huuid Htags).
    unfold recomputed_tags, without_old.
    rewrite (list_remove_absent old_tag tags Hold), Hnew. reflexivity.
Qed.

End Updates.

(** ** The listing and the loop *)

Section Orchestration.
Context {host : Host}.

Lemma patch_count_sent (w w' : world) : sent w = sent w' -> patch_count w = patch_count w'.
Proof. unfold patch_count. now intros ->. Qed.

Lemma patch_count_called (w : world) (req : request) :
  meth req <> PATCH -> patch_count (called w req) = patch_count w.
Proof.
  intros Hm. unfold patch_count, called. simpl. rewrite filter_app. simpl.
  unfold is_patch at 2. simpl. destruct (meth req); try congruence; simpl; now rewrite app_nil_r.
Qed.

Lemma get_token_no_patch (w : world) : patch_count (snd (get_token w)) = patch_count w.
Proof. rewrite get_token_run. simpl. now apply patch_count_called. Qed.

Lemma get_project_namespace_no_patch (project_uuid : pystr) (w : world) :
  patch_count (snd (get_project_namespace project_uuid w)) = patch_count w.
Proof.
  destruct (get_token w) as [[token|e] w1] eqn:Htok.
  - rewrite (patch_count_sent _ _ (get_project_namespace_sent project_uuid w w1 token Htok)).
    rewrite patch_count_called by discriminate.
    pose proof (get_token_no_patch w) as H. now rewrite Htok in H.
  - unfold get_project_namespace, bind. rewrite Htok. simpl.
    pose proof (get_token_no_patch w) as H. now rewrite Htok in H.
Qed.

(** The listing makes one call after the namespace and the token are there. *)
Lemma get_findings_with_tag_sent (project_uuid tag : pystr) (branch : option pystr)
    (w0 w1 w2 : world) (project_namespace token : json) :
  get_project_namespace project_uuid w0 = (Ok project_namespace, w1) ->
  get_token w1 = (Ok token, w2) ->
  sent (snd (get_findings_with_tag project_uuid tag branch w0))
    = sent (called w2 (findings_request project_namespace token project_uuid tag branch)).
Proof.
  intros Hns Htok.
  unfold get_findings_with_tag. unfold bind at 1. rewrite Hns.
  unfold bind at 1. rewrite Htok.
  set (req := findings_request project_namespace token project_uuid tag branch).
  assert (Hgen : forall line,
    sent (snd (bind (print line) (fun _ =>
      bind (http req) (fun response =>
        if (status_code response =? 200)%Z then
          bind (lift (json_body response)) (fun response_data =>
            bind (lift (listed_objects response_data)) (fun findings =>
              bind (lift (py_len findings)) (fun n =>
                bind (print (lit "Found " ++ str_int n ++ lit " findings with tag '"
                               ++ tag ++ lit "'"))
                     (fun _ => ret (findings, project_namespace)))))
        else raise (Exception (lit "Failed to fetch findings: "
                                 ++ str_int (status_code response) ++ lit ", "
                                 ++ text response)))) w2))
    = sent (called w2 req)).
  { intros line. unfold bind, print, http, called, lift, raise, ret, history. simpl.
    run_cases. }
  destruct (branch_given branch); apply Hgen.
Qed.

Lemma get_findings_with_tag_no_patch (project_uuid tag : pystr) (branch : option pystr)
    (w : world) :
  patch_count (snd (get_findings_with_tag project_uuid tag branch w)) = patch_count w.
Proof.
  pose proof (get_project_namespace_no_patch project_uuid w) as Hns.
  destruct (get_project_namespace project_uuid w) as [[ns|e] w1] eqn:E1; simpl in Hns.
  - pose proof (get_token_no_patch w1) as Htok.
    destruct (get_token w1) as [[token|e] w2] eqn:E2; simpl in Htok.
    + rewrite (patch_count_sent _ _
                 (get_findings_with_tag_sent project_uuid tag branch w w1 w2 ns token E1 E2)).
      rewrite patch_count_called by discriminate. congruence.
    + unfold get_findings_with_tag, bind. rewrite E1, E2. simpl. congruence.
  - unfold get_findings_with_tag, bind. rewrite E1. simpl. congruence.
Qed.





(** C5: when the listing returns no finding, the updater prints
    [No findings found with tag '<old tag>' in project <uuid>] and returns
    normally, and the run has made no PATCH beyond those recorded before it
    started. *)
Theorem C5_no_findings_no_patch (project_uuid old_tag new_tag : pystr)
    (branch : option pystr) (w0 w1 : world) (project_namespace : json) :
  get_findings_with_tag project_uuid old_tag branch w0
    = (Ok (JArr [], project_namespace), w1) ->
  update_finding_tags project_uuid old_tag new_tag branch w0
    = (Ok tt,
       printed w1 [lit "No findings found with tag '" ++ old_tag ++ lit "' in project "
                     ++ project_uuid]) /\
  patch_count (snd (update_finding_tags project_uuid old_tag new_tag branch w0))
  = patch_count w0.
Proof.
  intros Hlist.
  assert (Hrun : update_finding_tags project_uuid old_tag new_tag branch w0
                 = (Ok tt,
                    printed w1 [lit "No findings found with tag '" ++ old_tag
                                  ++ lit "' in project " ++ project_uuid])).
  { unfold update_finding_tags, try_except, update_finding_tags_body, bind.
    rewrite Hlist. reflexivity. }
  split; [exact Hrun|]. rewrite Hrun.
  pose proof (get_findings_with_tag_no_patch project_uuid old_tag branch w0) as H.
  rewrite Hlist in H. exact H.
Qed.

End Orchestration.

(** ** The filter of the listing *)






(** ** The exit status *)

Section Exit.
Context {host : Host}.

Lemma print_marked_ok (mark : N) (line : pystr) (w : world) :
  stdout_encodes mark = true -> print_marked mark line w = (Ok tt, printed w [line]).
Proof. intros H. unfold print_marked. now rewrite H. Qed.

Lemma print_marked_raises (mark : N) (line : pystr) (w : world) :
  stdout_encodes mark = false -> print_marked mark line w = (Raise (encode_error mark), w).
Proof. intros H. unfold print_marked. now rewrite H. Qed.

Lemma print_marked_sent (mark : N) (line : pystr) (w : world) :
  sent (snd (print_marked mark line w)) = sent w.
Proof. unfold print_marked. now destruct (stdout_encodes mark). Qed.

(** With a code for U+274C the handler of line 167 always prints, and the
    function returns. *)
Lemma update_finding_tags_caught (project_uuid old_tag new_tag : pystr)
    (branch : option pystr) (w w1 : world) (e : exn) :
  stdout_encodes CROSS_MARK = true ->
  update_finding_tags_body project_uuid old_tag new_tag branch w = (Raise e, w1) ->
  update_finding_tags project_uuid old_tag new_tag branch w
  = (Ok tt,
     printed w1 [[CROSS_MARK] ++ lit " Error updating findings in project " ++ project_uuid
                   ++ lit ": " ++ exc_str e]).
Proof.
  intros Hcross Hbody. unfold update_finding_tags, try_except. rewrite Hbody.
  now apply print_marked_ok.
Qed.

Lemma update_finding_tags_returns (project_uuid old_tag new_tag : pystr)
    (branch : option pystr) (w : world) :
  stdout_encodes CROSS_MARK = true ->
  exists w', update_finding_tags project_uuid old_tag new_tag branch w = (Ok tt, w').
Proof.
  intros Hcross.
  destruct (update_finding_tags_body project_uuid old_tag new_tag branch w)
    as [[[]|e] w'] eqn:Hbody.
  - exists w'. unfold update_finding_tags, try_except. now rewrite Hbody.
  - eexists. apply update_finding_tags_caught; [exact Hcross | exact Hbody].
Qed.


(** The status and the world [main] leaves, by the outcome of the
    validation. *)
Lemma main_exit (args : arguments) (w : world) :
  match validate_tags (arg_old_tag args) (arg_new_tag args) with
  | Raise e =>
    fst (main args w) = 1%Z /\
    sent (snd (main args w)) = sent w /\
    (stdout_encodes CROSS_MARK = true ->
     main args w
     = (1%Z, printed w [[CROSS_MARK] ++ lit " Tag validation error: " ++ exc_str e]))
  | Ok _ => marks_encodable -> fst (main args w) = 0%Z
  end.
Proof.
  unfold main.
  destruct (validate_tags (arg_old_tag args) (arg_new_tag args)) as [b|e].
  - intros [Hcheck Hcross].
    unfold bind at 1. unfold print at 1. unfold bind at 1. unfold print at 1.
    unfold bind at 1.
    match goal with
    | |- context [update_finding_tags ?u ?o ?n ?b ?w'] =>
      destruct (update_finding_tags_returns u o n b w' Hcross) as [w'' ->]
    end.
    now rewrite (print_marked_ok _ _ _ Hcheck).
  - split; [reflexivity|]. split.
    + cbn [snd]. apply print_marked_sent.
    + intros Hcross. now rewrite (print_marked_ok _ _ _ Hcross).
Qed.


End Exit.

(** * Further properties *)

(** ** Validation *)

(** X1: [validate_tag] accepts exactly the tags of 1 to 63 characters that
    are a non-empty run of characters of the class, or such a run followed
    by one final newline. *)
Theorem X1_validate_tag_accepts_iff (tag tag_name : pystr) :
  validate_tag tag tag_name = Ok true <->
  (1 <= len tag <= 63)%Z /\
  exists run, run <> [] /\ forallb valid_char run = true /\
              (tag = run \/ tag = run ++ [NEWLINE]).
Proof.
  rewrite validate_tag_ok_iff, match_valid_pattern_iff. reflexivity.
Qed.

(** X2: the three checks are made in order, so the message names the first
    rule broken: an empty tag is reported as empty, a tag of more than 63
    characters by its length whatever its characters are, and only a tag of
    1 to 63 characters by its characters. *)
Theorem X2_validate_tag_first_broken_rule (tag tag_name : pystr) :
  (tag = [] ->
   validate_tag tag tag_name = Raise (ValueError (tag_name ++ lit " cannot be empty"))) /\
  ((63 < len tag)%Z ->
   validate_tag tag tag_name =
     Raise (ValueError (tag_name ++ lit " must be 63 characters or less (current: "
                          ++ str_int (len tag) ++ lit " characters)"))) /\
  (tag <> [] -> (len tag <= 63)%Z -> match_valid_pattern tag = false ->
   validate_tag tag tag_name =
     Raise (ValueError (tag_name ++
       lit " may contain only letters (A-Z), numbers (0-9), and the following characters (=@_.-)"))).
Proof.
  destruct (validate_tag_cases tag tag_name)
    as [[He H] | [(Hne & Hlen & H) | [(Hne & Hlen & Hm & H) | (Hne & Hlen & Hm & H)]]];
    rewrite H; repeat split; intros; subst; try reflexivity; try congruence; try lia.
  all: unfold len in *; simpl in *; lia.
Qed.

(** X3: a tag that [validate_tag] accepts holds no double quote, no single
    quote and no space, so it cannot end the quoted operand of the filter
    early; its only character outside the class can be a final newline. *)
Theorem X3_accepted_tag_has_no_quote (tag tag_name : pystr) :
  validate_tag tag tag_name = Ok true ->
  Forall (fun c => valid_char c = true \/ c = NEWLINE) tag /\
  ~ In DQUOTE tag /\ ~ In 39 tag /\ ~ In 32 tag.
Proof.
  intros Hok. apply validate_tag_ok_iff in Hok. destruct Hok as [_ Hm].
  apply match_valid_pattern_iff in Hm. destruct Hm as (run & _ & Hall & Hrun).
  rewrite forallb_forall in Hall.
  assert (Hchars : forall c, In c tag -> valid_char c = true \/ c = NEWLINE).
  { intros c Hin. destruct Hrun as [-> | ->].
    - left. now apply Hall.
    - apply in_app_or in Hin as [Hin | [<- | []]]; [left; now apply Hall | now right]. }
  split; [now apply Forall_forall|].
  repeat split; intros Hin; apply Hchars in Hin; destruct Hin as [H | H]; discriminate H.
Qed.

(** ** What a run adds to the record and to the output *)

Section Keeping.
Context {host : Host}.
Variable Q : request -> Prop.









End Keeping.


Section Bounds.
Context {host : Host}.






End Bounds.

(** ** Counting the calls of a run *)

Section Counting.
Context {host : Host}.
Variable P : request * result response -> bool.

Lemma adds_ret {A} (a : A) : adds_at_most P 0 (ret a).
Proof. intros w. simpl. lia. Qed.

Lemma adds_raise {A} (e : exn) : adds_at_most P 0 (@raise A e).
Proof. intros w. simpl. lia. Qed.

Lemma adds_lift {A} (r : result A) : adds_at_most P 0 (lift r).
Proof. intros w. simpl. lia. Qed.

Lemma adds_print (line : pystr) : adds_at_most P 0 (print line).
Proof. intros w. simpl. lia. Qed.

Lemma adds_print_marked (mark : N) (line : pystr) :
  adds_at_most P 0 (print_marked mark line).
Proof.
  unfold print_marked. destruct (stdout_encodes mark);
    [apply adds_print | apply adds_lift].
Qed.

Lemma adds_http (req : request) : adds_at_most P 1 (http req).
Proof.
  intros w. simpl. rewrite filter_app, length_app. simpl.
  destruct (P (req, send (history w) req)); simpl; lia.
Qed.

Lemma adds_http_other (req : request) :
  (forall outcome, P (req, outcome) = false) -> adds_at_most P 0 (http req).
Proof.
  intros Hp w. simpl. rewrite filter_app, length_app. simpl. rewrite Hp. simpl. lia.
Qed.

Lemma adds_bind {A B} (n k : nat) (m : M A) (f : A -> M B) :
  adds_at_most P n m -> (forall a, adds_at_most P k (f a)) ->
  adds_at_most P (n + k) (bind m f).
Proof.
  intros Hm Hf w. unfold bind. specialize (Hm w).
  destruct (m w) as [[a|e] w1]; simpl in Hm.
  - specialize (Hf a w1). lia.
  - simpl. lia.
Qed.

Lemma adds_try {A} (n k : nat) (body : M A) (handler : exn -> M A) :
  adds_at_most P n body -> (forall e, adds_at_most P k (handler e)) ->
  adds_at_most P (n + k) (try_except body handler).
Proof.
  intros Hm Hf w. unfold try_except. specialize (Hm w).
  destruct (body w) as [[a|e] w1]; simpl in Hm.
  - simpl. lia.
  - specialize (Hf e w1). lia.
Qed.

Lemma adds_more {A} (n n' : nat) (m : M A) :
  (n <= n')%nat -> adds_at_most P n m -> adds_at_most P n' m.
Proof. intros Hle Hm w. specialize (Hm w). lia. Qed.

End Counting.

(** The steps that add nothing of the kind counted. *)
Ltac adds_nothing :=
  repeat first
    [ apply adds_ret | apply adds_raise | apply adds_lift | apply adds_print
    | apply adds_print_marked
    | apply (adds_bind _ 0 0); [|intros ?]
    | match goal with |- adds_at_most _ _ (if ?b then _ else _) => destruct b end
    | match goal with |- adds_at_most _ _ (match ?x with _ => _ end) => destruct x end ].

Section TokenCalls.
Context {host : Host}.

Lemma get_token_posts : adds_at_most is_post 1 get_token.
Proof.
  unfold get_token. apply (adds_bind _ 1 0); [apply adds_http | intros r]. adds_nothing.
Qed.

Lemma get_project_namespace_posts (project_uuid : pystr) :
  adds_at_most is_post 1 (get_project_namespace project_uuid).
Proof.
  unfold get_project_namespace.
  apply (adds_bind _ 1 0); [apply get_token_posts | intros token].
  apply (adds_bind _ 0 0); [apply adds_http_other; reflexivity | intros r].
  adds_nothing.
Qed.

Lemma get_findings_with_tag_posts (project_uuid tag : pystr) (branch : option pystr) :
  adds_at_most is_post 2 (get_findings_with_tag project_uuid tag branch).
Proof.
  unfold get_findings_with_tag.
  apply (adds_bind _ 1 1); [apply get_project_namespace_posts | intros ns].
  apply (adds_bind _ 1 0); [apply get_token_posts | intros token].
  apply (adds_bind _ 0 0); [adds_nothing | intros _].
  apply (adds_bind _ 0 0); [apply adds_http_other; reflexivity | intros r].
  adds_nothing.
Qed.

Lemma update_one_posts (url : pystr) (headers : list (pystr * pystr))
    (old_tag new_tag : pystr) (updated_count : Z) (finding : json) :
  adds_at_most is_post 0 (update_one url headers old_tag new_tag updated_count finding).
Proof.
  unfold update_one, remove_old_tag, add_new_tag.
  repeat first
    [ apply adds_http_other; reflexivity
    | apply adds_ret | apply adds_raise | apply adds_lift | apply adds_print
    | apply adds_print_marked
    | apply (adds_bind _ 0 0); [|intros ?]
    | match goal with |- adds_at_most _ _ (if ?b then _ else _) => destruct b end ].
Qed.

Lemma update_each_posts (url : pystr) (headers : list (pystr * pystr))
    (old_tag new_tag : pystr) (findings : list json) :
  forall updated_count,
    adds_at_most is_post 0 (update_each url headers old_tag new_tag updated_count findings).
Proof.
  induction findings as [|finding rest IH]; intros updated_count; simpl.
  - apply adds_ret.
  - apply (adds_bind _ 0 0); [apply update_one_posts | intros c; apply IH].
Qed.

(** X9: whatever the service answers and however many findings are listed,
    one run of [update_finding_tags] fetches a token at most three times:
    the updates of the loop share the token fetched before it. *)
Theorem X9_at_most_three_token_calls (project_uuid old_tag new_tag : pystr)
    (branch : option pystr) (w : world) :
  (post_count (snd (update_finding_tags project_uuid old_tag new_tag branch w))
   <= post_count w + 3)%nat.
Proof.
  revert w. change (adds_at_most is_post 3
                      (update_finding_tags project_uuid old_tag new_tag branch)).
  unfold update_finding_tags.
  apply (adds_try _ 3 0); [|intros e; apply adds_print_marked].
  unfold update_finding_tags_body.
  apply (adds_bind _ 2 1); [apply get_findings_with_tag_posts | intros [findings ns]].
  destruct (negb (py_truthy findings)).
  - apply (adds_more _ 0 1); [lia | apply adds_print].
  - apply (adds_bind _ 1 0); [apply get_token_posts | intros token].
    apply (adds_bind _ 0 0); [apply adds_lift | intros items].
    apply (adds_bind _ 0 0); [apply update_each_posts | intros c].
    adds_nothing.
Qed.

End TokenCalls.

(** ** The exit of the script *)

Section MainLines.
Context {host : Host}.

(** X4: when the old tag is refused, the script exits with status 1
    without looking at the new tag and without sending anything, and the
    line it prints, when standard output can encode U+274C, is that tag's
    error (otherwise nothing is printed); the new tag's error is reported in
    the same way only when the old tag passed. *)
Theorem X4_old_tag_is_reported_first (args : arguments) (w : world) (e : exn) :
  (validate_tag (arg_old_tag args) (lit "Old tag") = Raise e ->
   fst (main args w) = 1%Z /\
   sent (snd (main args w)) = sent w /\
   (stdout_encodes CROSS_MARK = true ->
    main args w = (1%Z, printed w [validation_line e])) /\
   (stdout_encodes CROSS_MARK = false -> main args w = (1%Z, w))) /\
  (validate_tag (arg_old_tag args) (lit "Old tag") = Ok true ->
   validate_tag (arg_new_tag args) (lit "New tag") = Raise e ->
   fst (main args w) = 1%Z /\
   sent (snd (main args w)) = sent w /\
   (stdout_encodes CROSS_MARK = true ->
    main args w = (1%Z, printed w [validation_line e])) /\
   (stdout_encodes CROSS_MARK = false -> main args w = (1%Z, w))).
Proof.
  assert (Hgen : validate_tags (arg_old_tag args) (arg_new_tag args) = Raise e ->
                 fst (main args w) = 1%Z /\
                 sent (snd (main args w)) = sent w /\
                 (stdout_encodes CROSS_MARK = true ->
                  main args w = (1%Z, printed w [validation_line e])) /\
                 (stdout_encodes CROSS_MARK = false -> main args w = (1%Z, w))).
  { intros Hv. pose proof (main_exit args w) as Hexit. rewrite Hv in Hexit.
    destruct Hexit as (H1 & Hs & Hline). repeat split; try assumption.
    intros Hno. unfold main. rewrite Hv.
    now rewrite (print_marked_raises _ _ _ Hno). }
  split.
  - intros Hold. apply Hgen. unfold validate_tags. now rewrite Hold.
  - intros Hold Hnew. apply Hgen. unfold validate_tags. now rewrite Hold, Hnew.
Qed.


End MainLines.

(** ** Failures before the loop *)

Section BeforeTheLoop.
Context {host : Host}.



(** X7: when the first token call is answered by another status than 200
    and standard output can encode U+274C, the run stops there:
    [update_finding_tags] has made that one call, has printed the one line
    [Error updating findings in project <uuid>: Failed to get token:
    <status>, <body>] after the mark, and returns normally. *)
Theorem X7_refused_token_stops_the_run (project_uuid old_tag new_tag : pystr)
    (branch : option pystr) (w : world) (r : response) :
  stdout_encodes CROSS_MARK = true ->
  send (history w) token_request = Ok r ->
  (status_code r <> 200)%Z ->
  update_finding_tags project_uuid old_tag new_tag branch w
  = (Ok tt,
     {| sent := sent w ++ [(token_request, Ok r)];
        stdout := stdout w
                    ++ [[CROSS_MARK] ++ lit " Error updating findings in project "
                          ++ project_uuid ++ lit ": " ++ lit "Failed to get token: "
                          ++ str_int (status_code r) ++ lit ", " ++ text r] |}).
Proof.
  intros Hcross Hsend Hnot.
  assert (Htok : get_token w
                 = (Raise (Exception (lit "Failed to get token: "
                                        ++ str_int (status_code r) ++ lit ", " ++ text r)),
                    {| sent := sent w ++ [(token_request, Ok r)]; stdout := stdout w |})).
  { rewrite get_token_run. unfold token_result, called. rewrite Hsend.
    apply Z.eqb_neq in Hnot. now rewrite Hnot. }
  assert (Hbody : update_finding_tags_body project_uuid old_tag new_tag branch w
                  = (Raise (Exception (lit "Failed to get token: "
                                         ++ str_int (status_code r) ++ lit ", " ++ text r)),
                     {| sent := sent w ++ [(token_request, Ok r)]; stdout := stdout w |})).
  { unfold update_finding_tags_body, get_findings_with_tag, get_project_namespace.
    unfold bind. rewrite Htok. reflexivity. }
  rewrite (update_finding_tags_caught project_uuid old_tag new_tag branch w _ _ Hcross Hbody).
  reflexivity.
Qed.

(** X8: when the project listing is answered 200 with no project and
    standard output can encode U+274C, the run stops after that call:
    [update_finding_tags] prints [Error updating findings in project
    <uuid>: No project found with UUID: <uuid>] after the mark, lists no
    findings and returns normally. *)
Theorem X8_unknown_project_stops_the_run (project_uuid old_tag new_tag : pystr)
    (branch : option pystr) (w0 w1 : world) (token : json) (r : response) (data : json) :
  stdout_encodes CROSS_MARK = true ->
  get_token w0 = (Ok token, w1) ->
  send (history w1) (projects_request token project_uuid) = Ok r ->
  (status_code r = 200)%Z ->
  json_body r = Ok data ->
  listed_objects data = Ok (JArr []) ->
  update_finding_tags project_uuid old_tag new_tag branch w0
  = (Ok tt,
     {| sent := sent w1 ++ [(projects_request token project_uuid, Ok r)];
        stdout := stdout w1
                    ++ [[CROSS_MARK] ++ lit " Error updating findings in project "
                          ++ project_uuid ++ lit ": "
                          ++ lit "No project found with UUID: " ++ project_uuid] |}).
Proof.
  intros Hcross Htok Hsend H200 Hbody Hlist.
  assert (Hraise : update_finding_tags_body project_uuid old_tag new_tag branch w0
                   = (Raise (Exception (lit "No project found with UUID: " ++ project_uuid)),
                      {| sent := sent w1 ++ [(projects_request token project_uuid, Ok r)];
                         stdout := stdout w1 |})).
  { unfold update_finding_tags_body, get_findings_with_tag, get_project_namespace.
    unfold bind. rewrite Htok. unfold http. rewrite Hsend, H200. cbn [Z.eqb Pos.eqb].
    unfold lift. rewrite Hbody, Hlist. reflexivity. }
  rewrite (update_finding_tags_caught project_uuid old_tag new_tag branch w0 _ _ Hcross
             Hraise).
  reflexivity.
Qed.

(** X10: a project without tenant data is no error: the namespace returned
    is [None], it is printed as such, and the findings are then listed
    under the namespace [None]. *)
Theorem X10_project_without_namespace (project_uuid : pystr) (w0 w1 : world)
    (token : json) (r : response) (data : json) (fields : list (pystr * json))
    (others : list json) :
  get_token w0 = (Ok token, w1) ->
  send (history w1) (projects_request token project_uuid) = Ok r ->
  (status_code r = 200)%Z ->
  json_body r = Ok data ->
  listed_objects data = Ok (JArr (JObj fields :: others)) ->
  lookup (lit "tenant_meta") fields = None ->
  get_project_namespace project_uuid w0
  = (Ok JNull,
     {| sent := sent w1 ++ [(projects_request token project_uuid, Ok r)];
        stdout := stdout w1 ++ [lit "Project namespace: " ++ lit "None"] |}) /\
  findings_url JNull = API_URL ++ lit "/namespaces/" ++ lit "None" ++ lit "/findings".
Proof.
  intros Htok Hsend H200 Hbody Hlist Hnone. split; [|reflexivity].
  unfold get_project_namespace.
  unfold bind. rewrite Htok. unfold http. rewrite Hsend, H200. cbn [Z.eqb Pos.eqb].
  unfold lift. rewrite Hbody, Hlist. cbn [py_truthy negb py_first].
  unfold tenant_namespace. cbn [py_get]. rewrite Hnone. reflexivity.
Qed.

End BeforeTheLoop.

(** ** Failures inside the loop *)

Section InTheLoop.
Context {host : Host}.

(** What the loop raises ends the update: the error line is printed and no
    report follows. *)
Lemma loop_raise_is_caught (project_uuid old_tag new_tag : pystr) (branch : option pystr)
    (w0 w1 w2 w3 : world) (finding : json) (rest : list json)
    (project_namespace token : json) (e : exn) :
  stdout_encodes CROSS_MARK = true ->
  get_findings_with_tag project_uuid old_tag branch w0
    = (Ok (JArr (finding :: rest), project_namespace), w1) ->
  get_token w1 = (Ok token, w2) ->
  update_each (findings_url project_namespace) (auth_headers token) old_tag new_tag 0%Z
    (finding :: rest) w2 = (Raise e, w3) ->
  update_finding_tags project_uuid old_tag new_tag branch w0
  = (Ok tt,
     printed w3 [[CROSS_MARK] ++ lit " Error updating findings in project " ++ project_uuid
                   ++ lit ": " ++ exc_str e]).
Proof.
  intros Hcross Hlist Htok Hloop.
  apply update_finding_tags_caught; [exact Hcross|].
  unfold update_finding_tags_body.
  unfold bind at 1. rewrite Hlist.
  cbn [py_truthy negb]. unfold bind at 1. rewrite Htok.
  unfold bind at 1. unfold lift at 1. cbn [py_iter].
  unfold bind at 1. rewrite Hloop. reflexivity.
Qed.


(** X12: a finding whose tags are not something [in] can search ([null], a
    number, a boolean) raises before anything is sent for it: the loop ends
    there, no PATCH is made for it or for the findings after it, and, when
    standard output can encode U+274C, the line [Error updating findings in
    project <uuid>: <message>] is printed after the mark instead of the
    report. *)
Theorem X12_unsearchable_tags_stop_the_loop (project_uuid old_tag new_tag : pystr)
    (branch : option pystr) (w0 w1 w2 : world) (finding finding_uuid tags : json)
    (rest : list json) (project_namespace token : json) (e : exn) :
  stdout_encodes CROSS_MARK = true ->
  get_findings_with_tag project_uuid old_tag branch w0
    = (Ok (JArr (finding :: rest), project_namespace), w1) ->
  get_token w1 = (Ok token, w2) ->
  py_get finding (lit "uuid") JNull = Ok finding_uuid ->
  finding_tags finding = Ok tags ->
  py_contains old_tag tags = Raise e ->
  update_finding_tags project_uuid old_tag new_tag branch w0
  = (Ok tt,
     printed w2 [[CROSS_MARK] ++ lit " Error updating findings in project " ++ project_uuid
                   ++ lit ": " ++ exc_str e]).
Proof.
  intros Hcross Hlist Htok Huuid Htags Hin.
  apply (loop_raise_is_caught project_uuid old_tag new_tag branch w0 w1 w2 w2
           finding rest project_namespace token e Hcross Hlist Htok).
  cbn [update_each]. unfold bind at 1. unfold update_one.
  unfold bind at 1. unfold lift at 1. rewrite Huuid.
  unfold bind at 1. unfold lift at 1. rewrite Htags.
  unfold bind at 1. unfold remove_old_tag. unfold bind at 1. unfold lift at 1.
  rewrite Hin. reflexivity.
Qed.


End InTheLoop.

(** ** The tag list of an update, in general *)

Lemma count_tag_cons (tag : pystr) (v : json) (tags : list json) :
  count_tag tag (v :: tags)
  = ((if tag_eqb tag v then 1 else 0) + count_tag tag tags)%nat.
Proof. unfold count_tag. simpl. now destruct (tag_eqb tag v). Qed.

Lemma count_tag_app (tag : pystr) (a b : list json) :
  count_tag tag (a ++ b) = (count_tag tag a + count_tag tag b)%nat.
Proof. unfold count_tag. now rewrite filter_app, length_app. Qed.

Lemma count_tag_one (tag other : pystr) :
  count_tag tag [JStr other] = if pystr_eqb tag other then 1%nat else 0%nat.
Proof. unfold count_tag. simpl. now destruct (pystr_eqb tag other). Qed.

Lemma has_tag_count (tag : pystr) (tags : list json) :
  existsb (tag_eqb tag) tags = false <-> count_tag tag tags = 0%nat.
Proof. now rewrite lacks_tag_not_In, count_tag_zero. Qed.

Lemma without_old_cons (old_tag : pystr) (v : json) (tags : list json) :
  without_old old_tag (v :: tags)
  = if tag_eqb old_tag v then tags else v :: without_old old_tag tags.
Proof.
  unfold without_old. simpl. destruct (tag_eqb old_tag v); [reflexivity|].
  now destruct (list_remove old_tag tags).
Qed.

(** [list.remove] takes one occurrence of the tag away and leaves every
    other tag as often as it was. *)
Lemma count_without_old (old_tag : pystr) (tags : list json) :
  count_tag old_tag (without_old old_tag tags) = pred (count_tag old_tag tags).
Proof.
  induction tags as [|v tags IH]; [reflexivity|].
  rewrite without_old_cons, count_tag_cons. destruct (tag_eqb old_tag v) eqn:E.
  - reflexivity.
  - now rewrite count_tag_cons, E.
Qed.


Lemma pystr_eqb_neq (a b : pystr) : a <> b -> pystr_eqb a b = false.
Proof.
  intros Hne. destruct (pystr_eqb a b) eqn:E; [|reflexivity].
  apply pystr_eqb_eq in E. contradiction.
Qed.

Section AnyTagList.
Context {host : Host}.


(** X15: on a list that holds the old tag at most once, the two steps done
    a second time change nothing and print nothing: two passes leave what
    one pass leaves. *)
Theorem X15_two_passes_are_one (old_tag new_tag : pystr) (finding_uuid : json)
    (tags : list json) (w : world) :
  old_tag <> new_tag ->
  (count_tag old_tag tags <= 1)%nat ->
  bind (bind (remove_old_tag old_tag finding_uuid (JArr tags))
             (fun t => add_new_tag new_tag finding_uuid t))
       (fun t => bind (remove_old_tag old_tag finding_uuid t)
                      (fun t' => add_new_tag new_tag finding_uuid t')) w
  = bind (remove_old_tag old_tag finding_uuid (JArr tags))
         (fun t => add_new_tag new_tag finding_uuid t) w.
Proof.
  intros Hne Hcount.
  unfold bind at 1. rewrite !recompute_run.
  set (once := recomputed_tags old_tag new_tag tags).
  assert (Hold : existsb (tag_eqb old_tag) once = false).
  { apply has_tag_count. subst once. unfold recomputed_tags.
    pose proof (count_without_old old_tag tags) as H.
    destruct (existsb (tag_eqb new_tag) (without_old old_tag tags)).
    - lia.
    - rewrite count_tag_app, count_tag_one, (pystr_eqb_neq old_tag new_tag Hne). lia. }
  assert (Hnew : existsb (tag_eqb new_tag) once = true).
  { subst once. unfold recomputed_tags.
    destruct (existsb (tag_eqb new_tag) (without_old old_tag tags)) eqn:E;
      [assumption|].
    rewrite existsb_app. simpl. rewrite pystr_eqb_refl. now rewrite orb_true_r. }
  assert (Hsame : without_old old_tag once = once).
  { unfold without_old. now rewrite (list_remove_absent old_tag once Hold). }
  assert (Htags : recomputed_tags old_tag new_tag once = once).
  { unfold recomputed_tags. now rewrite Hsame, Hnew. }
  assert (Hlines : recompute_lines old_tag new_tag finding_uuid once = []).
  { unfold recompute_lines. now rewrite Hsame, Hold, Hnew. }
  now rewrite Htags, Hlines, printed_nil.
Qed.


End AnyTagList.

(** ** Bodies that are not what the script expects *)

Section OddBodies.
Context {host : Host}.

(** X17: whatever the findings look like and whatever the service answers,
    the loop makes at most one PATCH for each finding listed. *)
Theorem X17_at_most_one_patch_per_finding (url : pystr) (headers : list (pystr * pystr))
    (old_tag new_tag : pystr) (findings : list json) (updated_count : Z) (w : world) :
  (patch_count (snd (update_each url headers old_tag new_tag updated_count findings w))
   <= patch_count w + List.length findings)%nat.
Proof.
  revert updated_count w.
  change (forall updated_count,
            adds_at_most is_patch (List.length findings)
              (update_each url headers old_tag new_tag updated_count findings)).
  induction findings as [|finding rest IH]; intros updated_count; cbn [update_each].
  - apply adds_ret.
  - cbn [List.length]. apply (adds_bind _ 1 (List.length rest)); [|intros c; apply IH].
    unfold update_one, remove_old_tag, add_new_tag.
    apply (adds_bind _ 0 1); [apply adds_lift | intros u].
    apply (adds_bind _ 0 1); [apply adds_lift | intros t0].
    apply (adds_bind _ 0 1); [adds_nothing | intros t1].
    apply (adds_bind _ 0 1); [adds_nothing | intros t2].
    apply (adds_bind _ 1 0); [apply adds_http | intros r].
    adds_nothing.
Qed.


(** X19: a token call answered 200 whose body does not decode, or decodes
    to something that is not an object, makes [get_token] raise the
    decoder's or the interpreter's exception after its one call; no token,
    not even [None], is returned. *)
Theorem X19_token_body_must_be_an_object (w : world) (r : response) :
  send (history w) token_request = Ok r ->
  (status_code r = 200)%Z ->
  (forall e, json_body r = Raise e ->
             get_token w = (Raise e, called w token_request)) /\
  (forall data, json_body r = Ok data -> (forall fields, data <> JObj fields) ->
             get_token w
             = (Raise (Builtin AttributeError (py_errmsg (NoAttribute (lit "get") data))),
                called w token_request)).
Proof.
  intros Hsend H200. rewrite get_token_run. unfold token_result.
  rewrite Hsend, H200. cbn [Z.eqb Pos.eqb]. split.
  - intros e ->. reflexivity.
  - intros data -> Hnot. destruct data; try reflexivity.
    exfalso. now apply (Hnot fields).
Qed.

End OddBodies.

(** * The statements on concrete runs *)

Transparent lit str_int.

Module Examples.
Import Demo.




Lemma C9_witness :
  @remove_old_tag host_three dev_repo (JStr (lit "f-1"))
     (JArr [JStr (lit "critical"); JStr prod_repo]) start
    = (Ok (JArr [JStr (lit "critical"); JStr prod_repo]), start) /\
  @add_new_tag host_three prod_repo (JStr (lit "f-1"))
     (JArr [JStr (lit "critical"); JStr prod_repo]) start
    = (Ok (JArr [JStr (lit "critical"); JStr prod_repo]), start) /\
  exists outcome,
    sent (snd (@update_one host_three (lit "u") [] dev_repo prod_repo 0%Z
                 (finding "f-1" ["critical"%string; "prod-repo"%string]) start))
      = sent start ++ [(patch_request (lit "u") [] (JStr (lit "f-1"))
                          (JArr [JStr (lit "critical"); JStr prod_repo]), outcome)].
Proof.
  apply (@C9_second_pass_changes_nothing host_three (lit "u") [] dev_repo prod_repo 0%Z
           (finding "f-1" ["critical"%string; "prod-repo"%string]) (JStr (lit "f-1"))
           [JStr (lit "critical"); JStr prod_repo] start).
  - reflexivity.
  - reflexivity.
  - vm_compute. intros [H | [H | []]]; discriminate H.
  - right. left. reflexivity.
Defined.




(** The scenario of the specification: the second of three updates is
    answered 500; three PATCHes are sent and the report counts two. *)
Example three_findings_one_failure :
  let w := snd (@update_finding_tags host_three p1 dev_repo prod_repo None start) in
  last (stdout w) [] = [NEWLINE; CHECK_MARK] ++ lit " Updated 2 out of 3 findings" /\
  patch_count w = 3%nat /\
  In ([CROSS_MARK] ++ lit " Failed to update finding f-2: 500, Internal Server Error")
     (stdout w) /\
  fst (@main host_three args_dev_prod start) = 0%Z.
Proof.
  vm_compute. repeat split. do 8 right. left. reflexivity.
Qed.

Lemma C5_witness :
  @update_finding_tags host_none p1 dev_repo prod_repo None start
    = (Ok tt,
       printed (snd (@get_findings_with_tag host_none p1 dev_repo None start))
         [lit "No findings found with tag '" ++ dev_repo ++ lit "' in project " ++ p1]) /\
  patch_count (snd (@update_finding_tags host_none p1 dev_repo prod_repo None start))
  = patch_count start.
Proof.
  apply (@C5_no_findings_no_patch host_none p1 dev_repo prod_repo None start
           (snd (@get_findings_with_tag host_none p1 dev_repo None start)) acme_team).
  vm_compute. reflexivity.
Defined.




(** A tag of 64 characters is refused before anything is sent, with the
    length in the message. *)
Example too_long_tag_exits_1 :
  let args := {| arg_old_tag := List.repeat 97 64; arg_new_tag := prod_repo;
                 arg_project_uuid := p1; arg_branch := None |} in
  @main host_three args start
  = (1%Z, printed start
            [[CROSS_MARK] ++ lit " Tag validation error: "
               ++ lit "Old tag must be 63 characters or less (current: 64 characters)"]).
Proof. vm_compute. reflexivity. Qed.



Lemma C7_witness :
  fst (@get_token host_three start) = Ok t0k3n /\
  fst (@get_token host_401 start)
    = Raise (Exception (lit "Failed to get token: 401, Unauthorized")) /\
  List.length (sent (snd (@get_token host_401 start))) = 1%nat.
Proof.
  destruct (@C7_get_token_result host_three start token_response eq_refl) as (_ & H200 & _).
  destruct (@C7_get_token_result host_401 start (plain_error 401 "Unauthorized") eq_refl)
    as (Hsent & _ & Hfail).
  split; [|split].
  - apply (H200 eq_refl [(lit "token", t0k3n)] t0k3n); reflexivity.
  - rewrite Hfail; [reflexivity | discriminate].
  - rewrite Hsent. reflexivity.
Defined.


Lemma C10_witness :
  @get_token host_no_token start
    = (Ok JNull, @called host_no_token start (@token_request host_no_token)) /\
  In (lit "Authorization", lit "Bearer None")
     (headers (@projects_request host_no_token JNull p1)) /\
  exists outcome,
    sent (snd (@get_project_namespace host_no_token p1 start))
      = sent start ++ [(@token_request host_no_token, Ok (ok_json (JObj [])));
                       (@projects_request host_no_token JNull p1, outcome)].
Proof.
  apply (@C10_missing_token_is_none host_no_token p1 start (ok_json (JObj [])) []);
    reflexivity.
Defined.

End Examples.

Module Cases.
Import Demo.

Lemma X2_witness :
  validate_tag [] (lit "New tag") = Raise (ValueError (lit "New tag" ++ lit " cannot be empty")) /\
  validate_tag (List.repeat 32 64) (lit "New tag")
    = Raise (ValueError (lit "New tag must be 63 characters or less (current: 64 characters)")) /\
  validate_tag (lit "dev repo") (lit "New tag")
    = Raise (ValueError (lit "New tag" ++
        lit " may contain only letters (A-Z), numbers (0-9), and the following characters (=@_.-)")).
Proof.
  split; [|split].
  - apply (X2_validate_tag_first_broken_rule [] (lit "New tag")). reflexivity.
  - apply (X2_validate_tag_first_broken_rule (List.repeat 32 64) (lit "New tag")).
    vm_compute. reflexivity.
  - apply (X2_validate_tag_first_broken_rule (lit "dev repo") (lit "New tag")).
    + discriminate.
    + vm_compute. discriminate.
    + reflexivity.
Defined.

Lemma X3_witness :
  Forall (fun c => valid_char c = true \/ c = NEWLINE) prod_repo /\
  ~ In DQUOTE prod_repo /\ ~ In 39 prod_repo /\ ~ In 32 prod_repo.
Proof.
  apply (X3_accepted_tag_has_no_quote prod_repo (lit "New tag")). reflexivity.
Defined.

Lemma X4_witness :
  @main host_three both_refused start
    = (1%Z, printed start
              [validation_line
                 (ValueError (lit "Old tag" ++
                    lit " may contain only letters (A-Z), numbers (0-9), and the following characters (=@_.-)"))]) /\
  @main host_three new_refused start
    = (1%Z, printed start
              [validation_line (ValueError (lit "New tag" ++ lit " cannot be empty"))]).
Proof.
  split.
  - destruct (proj1 (@X4_old_tag_is_reported_first host_three both_refused start _)
                eq_refl) as (_ & _ & Hline & _).
    apply Hline. reflexivity.
  - destruct (proj2 (@X4_old_tag_is_reported_first host_three new_refused start _)
                eq_refl eq_refl) as (_ & _ & Hline & _).
    apply Hline. reflexivity.
Defined.



Lemma X7_witness :
  @update_finding_tags host_401 p1 dev_repo prod_repo None start
  = (Ok tt,
     {| sent := sent start ++ [(@token_request host_401, Ok (plain_error 401 "Unauthorized"))];
        stdout := stdout start
                    ++ [error_line p1
                          (Exception (lit "Failed to get token: " ++ str_int 401
                                        ++ lit ", " ++ lit "Unauthorized"))] |}).
Proof.
  apply (@X7_refused_token_stops_the_run host_401 p1 dev_repo prod_repo None start
           (plain_error 401 "Unauthorized")).
  - reflexivity.
  - reflexivity.
  - discriminate.
Defined.

Lemma X8_witness :
  @update_finding_tags host_no_project p1 dev_repo prod_repo None start
  = (Ok tt,
     {| sent := sent (snd (@get_token host_no_project start))
                  ++ [(@projects_request host_no_project t0k3n p1, Ok (listing []))];
        stdout := stdout (snd (@get_token host_no_project start))
                    ++ [error_line p1
                          (Exception (lit "No project found with UUID: " ++ p1))] |}).
Proof.
  apply (@X8_unknown_project_stops_the_run host_no_project p1 dev_repo prod_repo None start
           (snd (@get_token host_no_project start)) t0k3n (listing [])
           (JObj [(lit "list", JObj [(lit "objects", JArr [])])]));
    reflexivity.
Defined.

Lemma X10_witness :
  @get_project_namespace host_bare_project p1 start
  = (Ok JNull,
     {| sent := sent (snd (@get_token host_bare_project start))
                  ++ [(@projects_request host_bare_project t0k3n p1,
                       Ok (listing [bare_project]))];
        stdout := stdout (snd (@get_token host_bare_project start))
                    ++ [lit "Project namespace: " ++ lit "None"] |}) /\
  @findings_url host_bare_project JNull
  = API_URL ++ lit "/namespaces/" ++ lit "None" ++ lit "/findings".
Proof.
  apply (@X10_project_without_namespace host_bare_project p1 start
           (snd (@get_token host_bare_project start)) t0k3n (listing [bare_project])
           (JObj [(lit "list", JObj [(lit "objects", JArr [bare_project])])])
           [(lit "uuid", JStr (lit "p-1"))] []);
    reflexivity.
Defined.


Lemma X12_witness :
  @update_finding_tags host_null_tags p1 dev_repo prod_repo None start
  = (Ok tt,
     printed (ready host_null_tags)
       [error_line p1
          (Builtin TypeError (@py_errmsg host_null_tags (NotContainer JNull)))]).
Proof.
  apply (@X12_unsearchable_tags_stop_the_loop host_null_tags p1 dev_repo prod_repo None
           start (listed host_null_tags) (ready host_null_tags)
           null_tags_finding (JStr (lit "f-0")) JNull
           [finding "f-2" ["dev-repo"%string]] acme_team t0k3n
           (Builtin TypeError (@py_errmsg host_null_tags (NotContainer JNull))));
    vm_compute; reflexivity.
Defined.



Lemma X15_witness :
  bind (bind (@remove_old_tag host_three dev_repo (JStr (lit "f-1"))
                (JArr [JStr dev_repo; JStr (lit "critical")]))
             (fun t => @add_new_tag host_three prod_repo (JStr (lit "f-1")) t))
       (fun t => bind (@remove_old_tag host_three dev_repo (JStr (lit "f-1")) t)
                      (fun t' => @add_new_tag host_three prod_repo (JStr (lit "f-1")) t'))
       start
  = bind (@remove_old_tag host_three dev_repo (JStr (lit "f-1"))
            (JArr [JStr dev_repo; JStr (lit "critical")]))
         (fun t => @add_new_tag host_three prod_repo (JStr (lit "f-1")) t) start.
Proof.
  apply (@X15_two_passes_are_one host_three dev_repo prod_repo (JStr (lit "f-1"))
           [JStr dev_repo; JStr (lit "critical")] start).
  - discriminate.
  - vm_compute. apply le_n.
Defined.



Lemma X19_witness :
  @get_token host_html_token start
    = (Raise (Builtin JSONDecodeError (lit "Expecting value: line 1 column 1 (char 0)")),
       @called host_html_token start (@token_request host_html_token)) /\
  @get_token host_array_token start
    = (Raise (Builtin AttributeError
                (@py_errmsg host_array_token (NoAttribute (lit "get") (JArr [])))),
       @called host_array_token start (@token_request host_array_token)).
Proof.
  split.
  - apply (proj1 (@X19_token_body_must_be_an_object host_html_token start
                    (plain_error 200 "<html></html>") eq_refl eq_refl)).
    reflexivity.
  - apply (proj2 (@X19_token_body_must_be_an_object host_array_token start
                    (ok_json (JArr [])) eq_refl eq_refl)).
    + reflexivity.
    + discriminate.
Defined.

End Cases.
